(** * Acknowledgment correlation in the Meshtastic console tools

    A shallow embedding of the ACK-handling code of [meshtastic_cli.py]
    and [meshtastic_GUI.py]: the module-level correlator variables
    ([ack_received_event], [ack_response_status], [waiting_for_ack_from]),
    the receive callbacks [on_receive] / [on_packet_received], and the
    sender threads [send_direct_message_and_wait] /
    [send_direct_message_thread].

    Each [with acks_lock:] block is one atomic transition of the shared
    correlator state; threads are interleaved at that granularity. *)

From Stdlib Require Import QArith Ascii.
From stdpp Require Import gmap strings list fin_maps sorting.

Set Warnings "-register-all".
Open Scope string_scope.

(** ** Python values as they occur in a decoded packet *)

Inductive pyval : Type :=
  | VNone
  | VBool (b : bool)
  | VInt (z : Z)
  | VFloat (q : Q)
  | VStr (s : string)
  | VList (l : list pyval)
  | VDict (d : gmap string pyval).

(** Python truthiness, as used by [if not decoded] and by
    [if waiting_for_ack_from and ...]. *)
Definition truthy (v : pyval) : bool :=
  match v with
  | VNone => false
  | VBool b => b
  | VInt z => negb (z =? 0)%Z
  | VFloat q => negb (Qeq_bool q 0)
  | VStr s => negb (String.eqb s "")
  | VList l => match l with [] => false | _ => true end
  | VDict d => negb (bool_decide (d = ∅))
  end.

(** [v == 'literal'] for a string literal on the right. *)
Definition eq_str (v : pyval) (s : string) : bool :=
  match v with
  | VStr t => String.eqb t s
  | _ => false
  end.

(** ** Exceptions *)

Inductive exn : Type :=
  | AttributeError
  | TransportError (msg : string).

Inductive result (A : Type) : Type :=
  | Ok (a : A)
  | Raise (e : exn).
Arguments Ok {A} a.
Arguments Raise {A} e.

(** Sequencing that stops at the first raised exception; written
    [x ← e; k] below. *)
#[global] Instance result_ret : MRet result := @Ok.
#[global] Instance result_bind : MBind result := λ A B k r,
  match r with
  | Ok a => k a
  | Raise e => Raise e
  end.

(** [packet.get(k, default)] on the packet, which the library always
    delivers as a dict. *)
Definition dict_get (d : gmap string pyval) (k : string) (default : pyval) : pyval :=
  match d !! k with
  | Some v => v
  | None => default
  end.

(** [v.get(k, default)] on an arbitrary value: only a dict has [get]. *)
Definition py_get (v : pyval) (k : string) (default : pyval) : result pyval :=
  match v with
  | VDict d => Ok (dict_get d k default)
  | _ => Raise AttributeError
  end.

(** ** The correlator state *)

Abbreviation node_id := string (only parsing).
Abbreviation packet := (gmap string pyval) (only parsing).

Record ack_state : Type := mk_ack_state {
  ack_received_event : bool;
  ack_response_status : pyval;
  waiting_for_ack_from : option node_id
}.

(** Module-level initial values (lines 25-28). *)
Definition initial_state : ack_state :=
  {| ack_received_event := false;
     ack_response_status := VStr "UNKNOWN";
     waiting_for_ack_from := None |}.

(** Truthiness of [waiting_for_ack_from]: [None] and the empty string are
    both falsy. *)
Definition waiting_truthy (w : option node_id) : bool :=
  match w with
  | None => false
  | Some x => negb (String.eqb x "")
  end.

(** [from_node_id == waiting_for_ack_from]. *)
Definition eq_waiting (v : pyval) (w : option node_id) : bool :=
  match w with
  | None => match v with VNone => true | _ => false end
  | Some x => eq_str v x
  end.

(** First critical section of the sender (lines 392-395). *)
Definition arm (destination_node_id : node_id) (s : ack_state) : ack_state :=
  {| ack_received_event := false;
     ack_response_status := VStr "UNKNOWN";
     waiting_for_ack_from := Some destination_node_id |}.

(** Second critical section of the sender (lines 408-410). *)
Definition disarm (s : ack_state) : pyval * ack_state :=
  (ack_response_status s,
   {| ack_received_event := ack_received_event s;
      ack_response_status := ack_response_status s;
      waiting_for_ack_from := None |}).

(** ** Code running against the shared correlator state

    A computation reads and writes the three ACK globals and either
    returns a value or raises. *)

Definition prog (A : Type) : Type := ack_state → result A * ack_state.

#[global] Instance prog_ret : MRet prog := λ A a s, (Ok a, s).
#[global] Instance prog_bind : MBind prog := λ A B k m s,
  match m s with
  | (Ok a, s') => k a s'
  | (Raise e, s') => (Raise e, s')
  end.

Definition lift {A} (r : result A) : prog A := λ s, (r, s).

Definition read_waiting : prog (option node_id) :=
  λ s, (Ok (waiting_for_ack_from s), s).

(** [ack_response_status = error] *)
Definition write_status (error : pyval) : prog unit :=
  λ s, (Ok (), {| ack_received_event := ack_received_event s;
                  ack_response_status := error;
                  waiting_for_ack_from := waiting_for_ack_from s |}).

(** [ack_received_event.set()] *)
Definition event_set : prog unit :=
  λ s, (Ok (), {| ack_received_event := true;
                  ack_response_status := ack_response_status s;
                  waiting_for_ack_from := waiting_for_ack_from s |}).

(** What a receive callback did with a packet. *)
Inductive receive_outcome : Type :=
  | AckHandled                 (* recorded as the awaited ACK, not shown *)
  | NoDecoded                  (* CLI line 37: early return *)
  | ToDisplay (p : packet)     (* handed to the presentation code *)
  | ErrorPrinted (e : exn).    (* CLI lines 110-112 *)

Module CLI.

(** Body of the [try] block of [on_receive] (lines 35-108); the
    presentation code from line 53 on is not modelled further. *)
Definition on_receive_try (packet : packet) : prog receive_outcome :=
  let decoded := dict_get packet "decoded" VNone in
  if negb (truthy decoded) then mret NoDecoded
  else
    message_type ← lift (py_get decoded "portnum" (VStr "N_A"));
    let from_node_id := dict_get packet "fromId" (VStr "N/A") in
    waiting ← read_waiting;
    if waiting_truthy waiting
       && eq_waiting from_node_id waiting
       && eq_str message_type "ROUTING_APP"
    then
      routing ← lift (py_get decoded "routing" (VDict ∅));
      error ← lift (py_get routing "errorReason" (VStr "UNKNOWN_RESPONSE"));
      _ ← write_status error;
      _ ← event_set;
      mret AckHandled
    else mret (ToDisplay packet).

(** [on_receive]: any exception of the body is caught and printed. *)
Definition on_receive (packet : packet) : prog receive_outcome :=
  λ s, match on_receive_try packet s with
       | (Ok o, s') => (Ok o, s')
       | (Raise e, s') => (Ok (ErrorPrinted e), s')
       end.

End CLI.

Module GUI.

(** [MeshtasticGUI.on_packet_received] (lines 261-273).  The [and]
    chain short-circuits, so [decoded] is only inspected once the
    sender matches; nothing catches an exception here. *)
Definition on_packet_received (packet : packet) : prog receive_outcome :=
  waiting ← read_waiting;
  matches ←
    (if waiting_truthy waiting
        && eq_waiting (dict_get packet "fromId" VNone) waiting
     then
       portnum ← lift (py_get (dict_get packet "decoded" (VDict ∅)) "portnum" VNone);
       mret (eq_str portnum "ROUTING_APP")
     else mret false);
  if matches : bool then
    routing ← lift (py_get (dict_get packet "decoded" (VDict ∅)) "routing" (VDict ∅));
    error ← lift (py_get routing "errorReason" (VStr "UNKNOWN_RESPONSE"));
    _ ← write_status error;
    _ ← event_set;
    mret AckHandled
  else mret (ToDisplay packet).

End GUI.

(** ** Sender threads and their interleaving with the feed *)

(** Final message of a sender (CLI lines 415-420 and 427, GUI 439-447).
    The progress line printed between the arm and [sendText] is not
    recorded. *)
Inductive notice : Type :=
  | Delivered (target : string)
  | NoAckTimeout
  | DeliveryFailed (target : string) (status : pyval)
  | SendFailed (e : exn).

(** The [if status == 'NONE' / elif status == 'UNKNOWN' / else] chain. *)
Definition classify (target : string) (status : pyval) : notice :=
  if eq_str status "NONE" then Delivered target
  else if eq_str status "UNKNOWN" then NoAckTimeout
  else DeliveryFailed target status.

(** [ack_received_event.wait(timeout=15.0)], in seconds. *)
Definition ACK_TIMEOUT : Q := 15.

(** Where a sender thread stands in [send_direct_message_and_wait]. *)
Inductive pc : Type :=
  | AtArm                     (* before line 392 *)
  | AtSend                    (* armed, before [sendText] returns *)
  | AtWait                    (* [sendText] returned, before [wait] *)
  | Waiting (woken : bool)    (* inside [wait]; [woken] once the flag was seen set *)
  | AtDisarm                  (* [wait] returned, before line 408 *)
  | Done (n : notice).

Record thread : Type := mk_thread {
  target_identifier : string;
  destination_node_id : node_id;
  at_pc : pc
}.

(** What the user-visible side of the program saw, in order. *)
Inductive shown : Type :=
  | Shown (o : receive_outcome)     (* what the callback did with a packet *)
  | FeedException (e : exn)         (* the callback raised into the feed *)
  | Notice (tid : nat) (n : notice).

(** The shared ACK globals, the sender threads started so far (a thread
    id is its index) and the log. *)
Record sys : Type := mk_sys {
  acks : ack_state;
  threads : list thread;
  display : list shown
}.

Definition initial_sys : sys :=
  {| acks := initial_state; threads := []; display := [] |}.

(** The atomic actions of the main loop, the senders and the feed. *)
Inductive label : Type :=
  | Spawn (target : string) (dest : node_id)  (* [dm] command, CLI lines 542-549 *)
  | Arm (tid : nat)
  | Send (tid : nat) (r : result unit)        (* [sendText] returns or raises *)
  | WaitEnter (tid : nat)
  | WaitReturn (tid : nat) (elapsed : Q)
  | Disarm (tid : nat)
  | Receive (p : packet).                     (* the feed delivers a packet *)

(** Move a thread to program point [p]. *)
Definition set_pc (p : pc) (t : thread) : thread :=
  {| target_identifier := target_identifier t;
     destination_node_id := destination_node_id t;
     at_pc := p |}.

(** [Event.set()] releases every thread blocked in [wait]. *)
Definition wake (t : thread) : thread :=
  match at_pc t with
  | Waiting _ => set_pc (Waiting true) t
  | _ => t
  end.

(** The thread has run its first critical section and not yet its
    second. *)
Definition outstanding (t : thread) : bool :=
  match at_pc t with
  | AtSend | AtWait | Waiting _ | AtDisarm => true
  | AtArm | Done _ => false
  end.

(** Number of senders that have armed and not yet disarmed. *)
Definition count_outstanding (σ : sys) : nat :=
  length (filter (λ t, outstanding t = true) (threads σ)).

Section System.

(** The receive callback subscribed to the feed. *)
Variable callback : packet → prog receive_outcome.

(** One atomic action. The sender's two [with acks_lock:] blocks are
    [Arm] and [Disarm]; [sendText] is decided by the environment;
    [Event.wait(timeout=15.0)] is entered with [WaitEnter], which looks at
    the flag, and left with [WaitReturn], which reports the time spent
    waiting: at most the timeout, and exactly the timeout unless the flag
    was seen set. A label that is not enabled gives [None]. *)
Definition step (l : label) (σ : sys) : option sys :=
  match l with
  | Spawn target dest =>
      (* [if destination_node_id:] then start a sender thread *)
      if negb (String.eqb dest "") then
        Some {| acks := acks σ;
                threads := threads σ ++ [mk_thread target dest AtArm];
                display := display σ |}
      else None
  | Arm tid =>
      t ← threads σ !! tid;
      match at_pc t with
      | AtArm =>
          Some {| acks := arm (destination_node_id t) (acks σ);
                  threads := <[tid := set_pc AtSend t]> (threads σ);
                  display := display σ |}
      | _ => None
      end
  | Send tid r =>
      t ← threads σ !! tid;
      match at_pc t, r with
      | AtSend, Ok _ =>
          Some {| acks := acks σ;
                  threads := <[tid := set_pc AtWait t]> (threads σ);
                  display := display σ |}
      | AtSend, Raise e =>
          (* [except Exception as e:] report and end; no second
             critical section is run *)
          Some {| acks := acks σ;
                  threads := <[tid := set_pc (Done (SendFailed e)) t]> (threads σ);
                  display := display σ ++ [Notice tid (SendFailed e)] |}
      | _, _ => None
      end
  | WaitEnter tid =>
      t ← threads σ !! tid;
      match at_pc t with
      | AtWait =>
          Some {| acks := acks σ;
                  threads := <[tid := set_pc (Waiting (ack_received_event (acks σ))) t]>
                               (threads σ);
                  display := display σ |}
      | _ => None
      end
  | WaitReturn tid elapsed =>
      t ← threads σ !! tid;
      match at_pc t with
      | Waiting woken =>
          (* returns once the flag was set, or when the timeout expires *)
          if Qle_bool 0 elapsed && Qle_bool elapsed ACK_TIMEOUT
             && (woken || Qeq_bool elapsed ACK_TIMEOUT)
          then Some {| acks := acks σ;
                       threads := <[tid := set_pc AtDisarm t]> (threads σ);
                       display := display σ |}
          else None
      | _ => None
      end
  | Disarm tid =>
      t ← threads σ !! tid;
      match at_pc t with
      | AtDisarm =>
          let '(status, s') := disarm (acks σ) in
          let n := classify (target_identifier t) status in
          Some {| acks := s';
                  threads := <[tid := set_pc (Done n) t]> (threads σ);
                  display := display σ ++ [Notice tid n] |}
      | _ => None
      end
  | Receive p =>
      match callback p (acks σ) with
      | (Ok o, s') =>
          Some {| acks := s';
                  threads := if ack_received_event s'
                             then wake <$> threads σ else threads σ;
                  display := display σ ++ [Shown o] |}
      | (Raise e, s') =>
          Some {| acks := s';
                  threads := threads σ;
                  display := display σ ++ [FeedException e] |}
      end
  end.

Fixpoint run (ls : list label) (σ : sys) : option sys :=
  match ls with
  | [] => Some σ
  | l :: ls' => σ' ← step l σ; run ls' σ'
  end.

End System.

(** ** Vocabulary for the statements *)

(** The packet is a ROUTING event with decoded payload [d]. *)
Definition routing_event (p : packet) (d : gmap string pyval) : Prop :=
  p !! "decoded" = Some (VDict d) ∧ d !! "portnum" = Some (VStr "ROUTING_APP").

(** The packet carries source id [X]. *)
Definition from_node (p : packet) (X : node_id) : Prop :=
  p !! "fromId" = Some (VStr X).

(** The port type of a packet, when it has one. *)
Definition portnum_of (p : packet) : option pyval :=
  match p !! "decoded" with
  | Some (VDict d) => d !! "portnum"
  | _ => None
  end.

(** A routing acknowledgment from [src] with the given routing payload. *)
Definition routing_packet (src : node_id) (routing : gmap string pyval) : packet :=
  {[ "fromId" := VStr src;
     "decoded" := VDict {[ "portnum" := VStr "ROUTING_APP";
                           "routing" := VDict routing ]} ]}.

Definition ack_packet (src : node_id) (reason : string) : packet :=
  routing_packet src {[ "errorReason" := VStr reason ]}.

Definition text_packet (src : node_id) (text : string) : packet :=
  {[ "fromId" := VStr src;
     "decoded" := VDict {[ "portnum" := VStr "TEXT_MESSAGE_APP";
                           "text" := VStr text ]} ]}.

(** The routing payload [decoded.get('routing', {})], when it is a dict. *)
Definition routing_payload (d : gmap string pyval) : option (gmap string pyval) :=
  match d !! "routing" with
  | None => Some ∅
  | Some (VDict r) => Some r
  | Some _ => None
  end.

(** The reason code a routing payload carries; a payload without an
    [errorReason] field stands for ['UNKNOWN_RESPONSE']. *)
Definition carried_reason (r : gmap string pyval) : pyval :=
  dict_get r "errorReason" (VStr "UNKNOWN_RESPONSE").

Definition with_acks (s : ack_state) (σ : sys) : sys :=
  {| acks := s; threads := threads σ; display := display σ |}.

Definition is_arm (l : label) : bool :=
  match l with Arm _ => true | _ => false end.

Definition is_handled (e : shown) : bool :=
  match e with Shown AckHandled => true | _ => false end.

(** How many packets the log records as withheld ACKs. *)
Definition handled_count (log : list shown) : nat :=
  length (filter (λ e, is_handled e = true) log).

(** The state a callback leaves after recording [error] as the ACK. *)
Definition recorded (error : pyval) (s : ack_state) : ack_state :=
  {| ack_received_event := true;
     ack_response_status := error;
     waiting_for_ack_from := waiting_for_ack_from s |}.

(** Whether the armed expectation matches the given sender and port. *)
Definition expectation_matches (from_node_id message_type : pyval) (s : ack_state) : bool :=
  waiting_truthy (waiting_for_ack_from s)
  && eq_waiting from_node_id (waiting_for_ack_from s)
  && eq_str message_type "ROUTING_APP".

(** A receive callback is a correlator when it changes the ACK globals
    only by recording an awaited acknowledgment. *)
Class Correlator (callback : packet → prog receive_outcome) : Prop := {
  cb_frame : ∀ p s r s',
    callback p s = (r, s') → r ≠ Ok AckHandled → s' = s;
  cb_handled : ∀ p s s',
    callback p s = (Ok AckHandled, s') →
    waiting_truthy (waiting_for_ack_from s) = true
    ∧ ack_received_event s' = true
    ∧ waiting_for_ack_from s' = waiting_for_ack_from s
}.

(** The two callbacks of the repository. *)
Definition tool_callback (callback : packet → prog receive_outcome) : Prop :=
  callback = CLI.on_receive ∨ callback = GUI.on_packet_received.

(** * The command loop of the console tool

    [main] of [meshtastic_cli.py]: one line of input is split, matched
    against the command forms and handed to a handler. The handlers, the
    node listing and the periodic refresh all print under [print_lock]. *)

(** ** Strings *)

(** [s.split(sep)] for a one-character separator. *)
Fixpoint split_on (sep : ascii) (s : string) : list string :=
  match s with
  | EmptyString => [EmptyString]
  | String c rest =>
      if Ascii.eqb c sep then EmptyString :: split_on sep rest
      else match split_on sep rest with
           | w :: ws => String c w :: ws
           | [] => [String c EmptyString]
           end
  end.

(** [raw_input_str.split(' ')] and [" ".join(parts)]. *)
Definition split_space (s : string) : list string := split_on " "%char s.
Definition join_space (parts : list string) : string := String.concat " " parts.

(** [s.startswith(prefix)]. *)
Definition startswith (prefix s : string) : bool := String.prefix prefix s.

(** ASCII case folding, used where a concrete [str.lower] is needed. *)
Definition ascii_lower_char (c : ascii) : ascii :=
  let n := nat_of_ascii c in
  if (65 <=? n)%nat && (n <=? 90)%nat then ascii_of_nat (n + 32) else c.

Fixpoint ascii_lower (s : string) : string :=
  match s with
  | EmptyString => EmptyString
  | String c rest => String (ascii_lower_char c) (ascii_lower rest)
  end.

(** ** Code that prints under [print_lock] *)

(** What the loop printed or asked of the device. Cosmetic output (the
    prompt, line clearing, banners, the progress line before a device
    call) is not recorded. *)
Inductive saying : Type :=
  | InvalidDmFormat
  | MultipleNodesFound
  | NodeNotFound (target : string)
  | SendingBroadcast
  | InvalidConfigCommand
  | InvalidConfigSet
  | InvalidConfigSetPos
  | InvalidLatLon
  | UnknownSetting (setting : string)
  | InvalidChannelCommand
  | NoChannelsFound
  | ChannelLine (i : nat) (name : string) (primary : bool)
  | UsageChannelSet
  | InvalidChannelIndex (i : Z)
  | ChannelNotFound (target : string)
  | UsageChannelAdd
  | UsageChannelDel
  | CannotDeletePrimary
  | InvalidChannelIndexDel
  | NoNodesFound
  | NoNodesOnline
  | NodeLine (node : string).

Inductive effect : Type :=
  | Say (m : saying)
  | CallSendText (text : string)
  | StartSender (target_identifier destination_node_id message : string)
  | CallReboot
  | CallSetOwner (long_name short_name : string)
  | CallSetFixedPosition (lat lon : Q)
  | CallSetPrimaryChannel (i : Z)
  | CallAddChannel (name : string)
  | CallDeleteChannel (i : Z).

(** Exceptions of the command loop: those of the packet code, and the
    two the loop's own conversions and comparisons raise. *)
Inductive pyerror : Type :=
  | OfExn (e : exn)
  | TypeError
  | ValueError
  | OverflowError.

(** How a piece of code ended: it returned, it waits for [print_lock]
    while its own thread holds it (a [threading.Lock] is not reentrant, so
    it waits forever), or an exception left it. *)
Inductive outcome (A : Type) : Type :=
  | Finished (a : A) (log : list effect)
  | BlockedOnPrintLock (log : list effect)
  | Crashed (e : pyerror) (log : list effect).
Arguments Finished {A} a log.
Arguments BlockedOnPrintLock {A} log.
Arguments Crashed {A} e log.

(** A computation of a thread; the argument says whether the thread
    already holds [print_lock]. *)
Definition locked (A : Type) : Type := bool → outcome A.

#[global] Instance locked_ret : MRet locked := λ A a held, Finished a [].
#[global] Instance locked_bind : MBind locked := λ A B k m held,
  match m held with
  | Finished a log =>
      match k a held with
      | Finished b log' => Finished b (log ++ log')
      | BlockedOnPrintLock log' => BlockedOnPrintLock (log ++ log')
      | Crashed e log' => Crashed e (log ++ log')
      end
  | BlockedOnPrintLock log => BlockedOnPrintLock log
  | Crashed e log => Crashed e log
  end.

Definition emit (e : effect) : locked unit := λ held, Finished () [e].

Definition say (m : saying) : locked unit := emit (Say m).

(** An exception raised by a pure step. *)
Definition lift_result {A} (r : result A) : locked A := λ held,
  match r with
  | Ok a => Finished a []
  | Raise e => Crashed (OfExn e) []
  end.

Definition crash {A} (e : pyerror) : locked A := λ held, Crashed e [].

(** [with print_lock: body]. *)
Definition with_print_lock {A} (body : locked A) : locked A := λ held,
  if held then BlockedOnPrintLock [] else body true.

(** ** The device interface as the loop reads it *)

(** A channel: its role and [settings.name] ([None] when the channel has
    no settings). *)
Record channel : Type := mk_channel {
  role_primary : bool;
  settings_name : option string
}.

(** [settings.name if settings and settings.name else default]. *)
Definition channel_name (default : string) (ch : channel) : string :=
  match settings_name ch with
  | Some n => if String.eqb n "" then default else n
  | None => default
  end.

(** [interface.nodes] in insertion order and [interface.localNode.channels]. *)
Record iface : Type := mk_iface {
  iface_nodes : list (string * gmap string pyval);
  iface_channels : list channel
}.

(** [ONLINE_THRESHOLD_SECONDS = 30 * 60]. *)
Definition ONLINE_THRESHOLD_SECONDS : Q := 30 * 60.

(** [node_info.get('lastHeard', 0)] as a number; comparing anything else
    with the cutoff raises [TypeError]. *)
Definition last_heard (node_info : gmap string pyval) : pyerror + Q :=
  match dict_get node_info "lastHeard" (VInt 0) with
  | VInt z => inr (inject_Z z)
  | VFloat q => inr q
  | VBool b => inr (if b then 1 else 0)%Q
  | _ => inl TypeError
  end.

(** The dict comprehension of [print_online_nodes] (lines 153-156): the
    entries heard after the cutoff, each with its key. *)
Fixpoint online_nodes (online_cutoff : Q) (nodes : list (string * gmap string pyval))
    : pyerror + list (Q * (string * gmap string pyval)) :=
  match nodes with
  | [] => inr []
  | (node_id, node_info) :: rest =>
      match last_heard node_info with
      | inl e => inl e
      | inr t =>
          match online_nodes online_cutoff rest with
          | inl e => inl e
          | inr kept =>
              inr (if Qlt_le_dec online_cutoff t
                   then (t, (node_id, node_info)) :: kept else kept)
          end
      end
  end.

(** [sorted(..., key=lastHeard, reverse=True)]: descending and stable. *)
Fixpoint insert_desc {A} (x : Q * A) (l : list (Q * A)) : list (Q * A) :=
  match l with
  | [] => [x]
  | y :: l' =>
      if Qlt_le_dec x.1 y.1 then y :: insert_desc x l' else x :: y :: l'
  end.

Definition sorted_desc {A} (l : list (Q * A)) : list (Q * A) :=
  foldr insert_desc [] l.

(** [name.encode(...) if name else None]: a truthy name must be a string. *)
Definition safe_name (name : pyval) : locked unit :=
  if truthy name then
    match name with
    | VStr _ => mret ()
    | _ => crash (OfExn AttributeError)
    end
  else mret ().

(** [if snr: print(f"...{snr:.2f} dB")]. *)
Definition print_snr (snr : pyval) : locked unit :=
  if truthy snr then
    match snr with
    | VInt _ | VFloat _ | VBool _ => mret ()
    | VStr _ => crash ValueError
    | _ => crash TypeError
    end
  else mret ().

(** [print_single_node] (lines 171-205); the caller holds [print_lock]. *)
Definition print_single_node (node_id : string) (node_info : gmap string pyval)
    : locked unit :=
  let user := dict_get node_info "user" VNone in
  if negb (truthy user) then mret ()
  else
    long_name ← lift_result (py_get user "longName" VNone);
    short_name ← lift_result (py_get user "shortName" VNone);
    _ ← safe_name long_name;
    _ ← safe_name short_name;
    _ ← say (NodeLine node_id);
    print_snr (dict_get node_info "snr" VNone).

(** The [for] loop over the sorted nodes. *)
Fixpoint print_nodes (l : list (Q * (string * gmap string pyval))) : locked unit :=
  match l with
  | [] => mret ()
  | (_, (node_id, node_info)) :: rest =>
      _ ← print_single_node node_id node_info;
      print_nodes rest
  end.

(** [print_online_nodes] (lines 137-168); [now] is [time.time()]. *)
Definition print_online_nodes (now : Q) (interface : iface) : locked unit :=
  with_print_lock
    (match iface_nodes interface with
     | [] => say NoNodesFound
     | nodes =>
         match online_nodes (now - ONLINE_THRESHOLD_SECONDS) nodes with
         | inl e => crash e
         | inr [] => say NoNodesOnline
         | inr online => print_nodes (sorted_desc online)
         end
     end).

(** One round of [periodic_update_thread] (lines 210-216), after the
    15 minute wait has timed out. *)
Definition periodic_round (now : Q) (interface : iface) : locked unit :=
  with_print_lock (print_online_nodes now interface).

(** ** Handlers and dispatch *)

(** What one pass of the [while] loop does next. *)
Inductive flow : Type := Continue | Break.

(** How the [dm] target was resolved (lines 524-540). *)
Inductive resolution : Type :=
  | Resolved (destination_node_id : string)
  | Ambiguous
  | Unknown.

Section Console.

(** [str.lower], [int(...)] and [float(...)]; a failed conversion
    ([None]) is a [ValueError]. *)
Variable lower : string → string.
Variable py_int : string → option Z.
Variable py_float : string → option Q.

(** What [on_nodes_updated] and [handle_info_command] print once they
    hold [print_lock]. *)
Variable nodes_all_body : iface → locked unit.
Variable info_body : iface → locked unit.

(** [on_nodes_updated] (lines 115-134). *)
Definition on_nodes_updated (interface : iface) : locked unit :=
  with_print_lock (nodes_all_body interface).

(** [handle_info_command] (lines 259-295). *)
Definition handle_info_command (interface : iface) : locked unit :=
  with_print_lock (info_body interface).

(** [handle_config_command] (lines 219-256). *)
Definition handle_config_command (interface : iface) (parts : list string)
    : locked unit :=
  with_print_lock
    (match parts with
     | _ :: sub_command :: rest =>
         if String.eqb sub_command "reboot" then emit CallReboot
         else if String.eqb sub_command "set" then
           match rest with
           | setting :: long_name :: rest' =>
               if String.eqb setting "owner" then
                 match rest' with
                 | short_name :: _ => emit (CallSetOwner long_name short_name)
                 | [] => emit (CallSetOwner long_name (String.substring 0 4 long_name))
                 end
               else if String.eqb setting "pos" then
                 match rest' with
                 | lon_text :: _ =>
                     match py_float long_name with
                     | Some lat =>
                         match py_float lon_text with
                         | Some lon => emit (CallSetFixedPosition lat lon)
                         | None => say InvalidLatLon
                         end
                     | None => say InvalidLatLon
                     end
                 | [] => say InvalidConfigSetPos
                 end
               else say (UnknownSetting setting)
           | _ => say InvalidConfigSet
           end
         else mret ()
     | _ => say InvalidConfigCommand
     end).

(** The name search of [channel set] (lines 340-346): the first channel
    whose name equals the target, ignoring case. *)
Fixpoint find_channel (target : string) (i : nat) (chs : list channel) : option nat :=
  match chs with
  | [] => None
  | ch :: rest =>
      if String.eqb (lower (channel_name "" ch)) (lower target) then Some i
      else find_channel target (S i) rest
  end.

(** [target_index] of [channel set] (lines 333-346): the integer when
    the target converts, else the name search, else [-1]. *)
Definition channel_target_index (target : string) (chs : list channel) : Z :=
  match py_int target with
  | Some z => z
  | None =>
      match find_channel target 0 chs with
      | Some i => Z.of_nat i
      | None => (-1)%Z
      end
  end.

Fixpoint list_channels (i : nat) (chs : list channel) : locked unit :=
  match chs with
  | [] => mret ()
  | ch :: rest =>
      _ ← say (ChannelLine i (channel_name "N/A" ch) (role_primary ch));
      list_channels (S i) rest
  end.

(** [handle_channel_command] (lines 298-385). *)
Definition handle_channel_command (interface : iface) (parts : list string)
    : locked unit :=
  with_print_lock
    (match parts with
     | _ :: sub_command :: rest =>
         if String.eqb sub_command "list" then
           match iface_channels interface with
           | [] => say NoChannelsFound
           | chs => list_channels 0 chs
           end
         else if String.eqb sub_command "set" then
           match rest with
           | target_identifier :: _ =>
               let target_index :=
                 channel_target_index target_identifier (iface_channels interface) in
               if negb (target_index =? -1)%Z then
                 if (0 <=? target_index)%Z
                    && (target_index <? Z.of_nat (length (iface_channels interface)))%Z
                 then emit (CallSetPrimaryChannel target_index)
                 else say (InvalidChannelIndex target_index)
               else say (ChannelNotFound target_identifier)
           | [] => say UsageChannelSet
           end
         else if String.eqb sub_command "add" then
           match rest with
           | name :: _ => emit (CallAddChannel name)
           | [] => say UsageChannelAdd
           end
         else if String.eqb sub_command "del" then
           match rest with
           | index_text :: _ =>
               match py_int index_text with
               | Some index =>
                   if (index =? 0)%Z then say CannotDeletePrimary
                   else emit (CallDeleteChannel index)
               | None => say InvalidChannelIndexDel
               end
           | [] => say UsageChannelDel
           end
         else mret ()
     | _ => say InvalidChannelCommand
     end).

(** [user.get(key, '').lower()]: only a dict has [get], only a string
    has [lower]. *)
Definition name_lower (user : pyval) (key : string) : result string :=
  v ← py_get user key (VStr "");
  match v with
  | VStr name => Ok (lower name)
  | _ => Raise AttributeError
  end.

(** The membership test of line 532. *)
Definition name_matches (target_identifier : string) (node_info : gmap string pyval)
    : result bool :=
  let user := dict_get node_info "user" (VDict ∅) in
  long_name ← name_lower user "longName";
  short_name ← name_lower user "shortName";
  Ok (String.eqb (lower target_identifier) long_name
      || String.eqb (lower target_identifier) short_name).

(** [found_nodes] (lines 529-533). *)
Fixpoint find_nodes (target_identifier : string)
    (nodes : list (string * gmap string pyval)) : result (list string) :=
  match nodes with
  | [] => Ok []
  | (node_id_key, node_info) :: rest =>
      hit ← name_matches target_identifier node_info;
      found ← find_nodes target_identifier rest;
      Ok (if hit : bool then node_id_key :: found else found)
  end.

Definition resolve (target_identifier : string)
    (nodes : list (string * gmap string pyval)) : result resolution :=
  if startswith "!" target_identifier then Ok (Resolved target_identifier)
  else
    found_nodes ← find_nodes target_identifier nodes;
    Ok (match found_nodes with
        | [node_id] => Resolved node_id
        | [] => Unknown
        | _ => Ambiguous
        end).

(** The [dm] branch (lines 520-551). *)
Definition handle_dm (interface : iface) (parts : list string) : locked unit :=
  match parts with
  | _ :: target_identifier :: (_ :: _) as message_parts =>
      let message := join_space message_parts in
      r ← lift_result (resolve target_identifier (iface_nodes interface));
      match r with
      | Resolved destination_node_id =>
          if negb (String.eqb destination_node_id "") then
            emit (StartSender target_identifier destination_node_id message)
          else mret ()
      | Ambiguous => say MultipleNodesFound
      | Unknown => say (NodeNotFound target_identifier)
      end
  | _ => say InvalidDmFormat
  end.

(** The [if]/[elif] chain on the command (lines 510-556). *)
Definition dispatch (now : Q) (interface : iface) (raw_input_str : string)
    : locked flow :=
  let cmd := lower raw_input_str in
  let parts := split_space raw_input_str in
  if String.eqb cmd "exit" then mret Break
  else
    _ ← (if String.eqb cmd "nodes all" then on_nodes_updated interface
         else if String.eqb cmd "nodes online" then print_online_nodes now interface
         else if String.eqb cmd "info" then handle_info_command interface
         else if startswith "channel" cmd then handle_channel_command interface parts
         else if startswith "dm " cmd then handle_dm interface parts
         else if startswith "config " cmd then handle_config_command interface parts
         else
           _ ← say SendingBroadcast;
           emit (CallSendText raw_input_str));
    mret Continue.

(** One pass of the [while] loop once a line has been read (lines
    499-560): everything happens under [print_lock]. *)
Definition main_iteration (now : Q) (interface : iface) (raw_input_str : string)
    : locked flow :=
  with_print_lock
    (if String.eqb raw_input_str "" then mret Continue
     else dispatch now interface raw_input_str).

End Console.

(** The lower-cased line is one of the command forms of the loop. *)
Definition command_form (cmd : string) : bool :=
  String.eqb cmd "exit" || String.eqb cmd "nodes all"
  || String.eqb cmd "nodes online" || String.eqb cmd "info"
  || startswith "channel" cmd || startswith "dm " cmd
  || startswith "config " cmd.

(** The effects a computation had before it ended. *)
Definition log_of {A} (o : outcome A) : list effect :=
  match o with
  | Finished _ log | BlockedOnPrintLock log | Crashed _ log => log
  end.

(** No space occurs in the string. *)
Fixpoint no_space (s : string) : bool :=
  match s with
  | EmptyString => true
  | String c rest => negb (Ascii.eqb c " "%char) && no_space rest
  end.

(** The nodes a log lists, in order. *)
Definition listed_nodes (log : list effect) : list string :=
  omap (λ e, match e with Say (NodeLine n) => Some n | _ => None end) log.

(** Code that takes no lock never waits for one. *)
Definition never_blocks {A} (m : locked A) : Prop :=
  ∀ held log, m held ≠ BlockedOnPrintLock log.

(** The order of the node lists: later [lastHeard] first. *)
Definition newest_first {A} (x y : Q * A) : Prop := (y.1 <= x.1)%Q.

(** The sender ended in the handler of a raised [sendText]. *)
Definition failed_send (t : thread) : bool :=
  match at_pc t with
  | Done (SendFailed _) => true
  | _ => false
  end.

(** The packet has the shape the library gives it: [decoded], when
    present, is a dict, and so is its [routing] entry. *)
Definition well_formed_packet (p : packet) : Prop :=
  ∀ v, p !! "decoded" = Some v →
       ∃ d, v = VDict d ∧ ∀ r, d !! "routing" = Some r → ∃ rd, r = VDict rd.

(** Why the correlator may be armed: nothing is armed, or a sender is
    between its two critical sections, or a sender ended in the handler of
    a raised [sendText]. *)
Definition armed_cause (σ : sys) : Prop :=
  waiting_for_ack_from (acks σ) = None
  ∨ (0 < count_outstanding σ)%nat
  ∨ ∃ t, t ∈ threads σ ∧ failed_send t = true.

(** The label is a [sendText] that raises. *)
Definition is_send_error (l : label) : bool :=
  match l with
  | Send _ (Raise _) => true
  | _ => false
  end.

(** * The message window of the GUI tool *)

Module GUIWindow.

(** [self.filter_vars] as created in [__init__] (lines 37-43); the
    check boxes change the values, never the keys. *)
Definition initial_filter_vars : gmap string bool :=
  {[ "ADMIN_APP" := true; "POSITION_APP" := true; "TELEMETRY_APP" := true;
     "NODEINFO_APP" := true; "ROUTING_APP" := false ]}.

(** What a log entry says after its "From:" line. *)
Inductive entry_body : Type :=
  | MessageText (text : pyval)
  | Position (lat lon : pyval)
  | PacketData (portnum : pyval).

(** The sender as shown: a name with the id, or the bare [fromId]. *)
Inductive sender_shown : Type :=
  | Named (name : pyval) (from_node_id : pyval)
  | Bare (from_node_id : pyval).

Record log_entry : Type := mk_log_entry {
  entry_from : sender_shown;
  entry_body_of : entry_body
}.

(** [key in some_dict] for a dict with string keys: a list or a dict
    cannot be hashed. *)
Definition py_in {V} (key : pyval) (d : gmap string V) : pyerror + option V :=
  match key with
  | VStr k => inr (d !! k)
  | VList _ | VDict _ => inl TypeError
  | _ => inr None
  end.

(** [v.get(k, default)] with the errors of this part of the code. *)
Definition get_or (v : pyval) (k : string) (default : pyval) : pyerror + pyval :=
  match py_get v k default with
  | Ok x => inr x
  | Raise e => inl (OfExn e)
  end.

(** The least magnitude of an int that does not convert to a float: the
    midpoint between the largest double and [2**1024] rounds up. *)
Definition INT_TOO_LARGE_FOR_FLOAT : Z := 2 ^ 1024 - 2 ^ 970.

(** [f"{v:.5f}"]: a float or a bool formats; an int is converted to a
    float first, which raises [OverflowError] when it is too large; a
    string gives [ValueError], anything else [TypeError]. *)
Definition format_5f (v : pyval) : pyerror + unit :=
  match v with
  | VInt z =>
      if (Z.abs z <? INT_TOO_LARGE_FOR_FLOAT)%Z then inr () else inl OverflowError
  | VFloat _ | VBool _ => inr ()
  | VStr _ => inl ValueError
  | _ => inl TypeError
  end.

(** [name and name != "N/A"]. *)
Definition usable_name (name : pyval) : bool :=
  truthy name && negb (eq_str name "N/A").

(** Lines 348-360: how the sender is shown. [nodes] is [None] while no
    interface is connected. *)
Definition from_str (nodes : option (gmap string (gmap string pyval)))
    (from_node_id : pyval) : pyerror + sender_shown :=
  match nodes with
  | None => inr (Bare from_node_id)
  | Some nodes =>
      match py_in from_node_id nodes with
      | inl e => inl e
      | inr None => inr (Bare from_node_id)
      | inr (Some node_info) =>
          let user := dict_get node_info "user" VNone in
          if truthy user then
            match get_or user "longName" VNone with
            | inl e => inl e
            | inr long_name =>
                match get_or user "shortName" VNone with
                | inl e => inl e
                | inr short_name =>
                    if usable_name long_name then inr (Named long_name from_node_id)
                    else if usable_name short_name then inr (Named short_name from_node_id)
                    else inr (Bare from_node_id)
                end
            end
          else inr (Bare from_node_id)
      end
  end.

(** Lines 365-376: the body of the entry. *)
Definition entry_for (portnum decoded : pyval) : pyerror + entry_body :=
  if eq_str portnum "TEXT_MESSAGE_APP" then
    match get_or decoded "text" (VStr "Empty message") with
    | inl e => inl e
    | inr text => inr (MessageText text)
    end
  else if eq_str portnum "POSITION_APP" then
    match get_or decoded "position" (VDict ∅) with
    | inl e => inl e
    | inr pos =>
        match get_or pos "latitude" (VStr "N/A") with
        | inl e => inl e
        | inr lat =>
            match get_or pos "longitude" (VStr "N/A") with
            | inl e => inl e
            | inr lon =>
                match format_5f lat with
                | inl e => inl e
                | inr _ =>
                    match format_5f lon with
                    | inl e => inl e
                    | inr _ => inr (Position lat lon)
                    end
                end
            end
        end
    end
  else inr (PacketData portnum).

(** [update_message_window] (lines 340-378): [None] when the packet is
    filtered out, else the entry appended to the window. *)
Definition update_message_window (filter_vars : gmap string bool)
    (nodes : option (gmap string (gmap string pyval))) (packet : packet)
    : pyerror + option log_entry :=
  let decoded := dict_get packet "decoded" (VDict ∅) in
  match get_or decoded "portnum" (VStr "UNKNOWN") with
  | inl e => inl e
  | inr portnum =>
      match py_in portnum filter_vars with
      | inl e => inl e
      | inr (Some false) => inr None
      | inr _ =>
          match from_str nodes (dict_get packet "fromId" (VStr "N/A")) with
          | inl e => inl e
          | inr sender =>
              match entry_for portnum decoded with
              | inl e => inl e
              | inr body => inr (Some (mk_log_entry sender body))
              end
          end
      end
  end.

(** What [update_message_window] appends for one packet, if it returns. *)
Definition shown_entry (filter_vars : gmap string bool)
    (nodes : option (gmap string (gmap string pyval))) (packet : packet)
    : option log_entry :=
  match update_message_window filter_vars nodes packet with
  | inr (Some entry) => Some entry
  | _ => None
  end.

(** The [while] loop of [process_queue] (lines 275-284) over the packets
    queued so far: the entries shown, the packets left in the queue, and
    the exception that ended the loop, if any. *)
Fixpoint process_queue (filter_vars : gmap string bool)
    (nodes : option (gmap string (gmap string pyval))) (queue : list packet)
    : list log_entry * list packet * option pyerror :=
  match queue with
  | [] => ([], [], None)
  | packet :: rest =>
      match update_message_window filter_vars nodes packet with
      | inl e => ([], rest, Some e)
      | inr shown =>
          let '(entries, remaining, err) := process_queue filter_vars nodes rest in
          (match shown with Some entry => entry :: entries | None => entries end,
           remaining, err)
      end
  end.

End GUIWindow.

(** ** What the console shows for a packet ([on_receive], lines 53-112) *)

Module CLIDisplay.

(** [display_name]: the long name with the short one in brackets, or
    either of them alone. *)
Inductive display_name : Type :=
  | LongShort (safe_long safe_short : string)
  | LongOnly (safe_long : string)
  | ShortOnly (safe_short : string).

Inductive from_shown : Type :=
  | FromNamed (name : display_name) (from_node_id : pyval)
  | FromBare (from_node_id : pyval).

(** What is written to the terminal, in order. *)
Inductive packet_line : Type :=
  | ClearLine                          (* line 55 *)
  | TitleLines (is_direct : bool)      (* lines 60-64 *)
  | FromLine (from_str : from_shown)   (* line 87 *)
  | TypeLine (message_type : pyval)    (* line 88 *)
  | MessageLine (safe_message : string)
  | PositionLine (lat lon : pyval)
  | DataLine (decoded : gmap string pyval)
  | SnrLine (snr : pyval)
  | RuleLine
  | PromptLine                         (* lines 107-108 *)
  | ErrorLine (e : pyerror).           (* lines 110-112 *)

(** [v == n] for an int [n]: numbers compare by value, anything else is
    unequal. *)
Definition eq_int (v : pyval) (n : Z) : bool :=
  match v with
  | VInt z => (z =? n)%Z
  | VFloat q => Qeq_bool q (inject_Z n)
  | VBool b => ((if b then 1 else 0) =? n)%Z
  | _ => false
  end.

(** [if safe_long:] on a string or [None]. *)
Definition nonempty (name : option string) : option string :=
  match name with
  | Some s => if String.eqb s "" then None else Some s
  | None => None
  end.

(** Lines 75-84. *)
Definition name_of (safe_long safe_short : option string) : option display_name :=
  match nonempty safe_long, nonempty safe_short with
  | Some l, Some s => Some (LongShort l s)
  | Some l, None => Some (LongOnly l)
  | None, Some s => Some (ShortOnly s)
  | None, None => None
  end.

Section Encoding.

(** [s.encode(sys.stdout.encoding, errors='replace').decode(sys.stdout.encoding)]
    on a string. *)
Variable safe : string → string.

(** [v.encode(...).decode(...) if v else None]: only a string has
    [encode]. *)
Definition safe_or_none (v : pyval) : pyerror + option string :=
  if truthy v then
    match v with
    | VStr s => inr (Some (safe s))
    | _ => inl (OfExn AttributeError)
    end
  else inr None.

(** Lines 66-85: how the sender is shown. *)
Definition from_str (nodes : gmap string (gmap string pyval))
    (from_node_id : pyval) : pyerror + from_shown :=
  match GUIWindow.py_in from_node_id nodes with
  | inl e => inl e
  | inr None => inr (FromBare from_node_id)
  | inr (Some node_info) =>
      let user := dict_get node_info "user" VNone in
      if truthy user then
        match GUIWindow.get_or user "longName" VNone with
        | inl e => inl e
        | inr long_name =>
            match GUIWindow.get_or user "shortName" VNone with
            | inl e => inl e
            | inr short_name =>
                match safe_or_none long_name with
                | inl e => inl e
                | inr safe_long =>
                    match safe_or_none short_name with
                    | inl e => inl e
                    | inr safe_short =>
                        match name_of safe_long safe_short with
                        | Some name => inr (FromNamed name from_node_id)
                        | None => inr (FromBare from_node_id)
                        end
                    end
                end
            end
        end
      else inr (FromBare from_node_id)
  end.

(** Lines 90-100: the line that depends on the packet type. *)
Definition body_line (message_type : pyval) (decoded : gmap string pyval)
    : pyerror + packet_line :=
  if eq_str message_type "TEXT_MESSAGE_APP" && bool_decide (is_Some (decoded !! "text"))
  then
    match dict_get decoded "text" VNone with
    | VStr message_text => inr (MessageLine (safe message_text))
    | _ => inl (OfExn AttributeError)
    end
  else if eq_str message_type "POSITION_APP"
          && bool_decide (is_Some (decoded !! "position"))
  then
    let pos := dict_get decoded "position" VNone in
    match GUIWindow.get_or pos "latitude" (VStr "N/A") with
    | inl e => inl e
    | inr lat =>
        match GUIWindow.get_or pos "longitude" (VStr "N/A") with
        | inl e => inl e
        | inr lon => inr (PositionLine lat lon)
        end
    end
  else inr (DataLine decoded).

(** The block under [print_lock] (lines 53-108): the lines written, and
    the exception that left the block, if any. [my_node_num] is [None]
    when [interface.myInfo] is. Writing to the terminal is taken to
    succeed. *)
Definition display (my_node_num : option Z) (nodes : gmap string (gmap string pyval))
    (packet : packet) (decoded : gmap string pyval) (message_type : pyval)
    : list packet_line * option pyerror :=
  let is_direct :=
    match my_node_num with
    | Some n => eq_int (dict_get packet "toId" VNone) n
    | None => false
    end in
  match from_str nodes (dict_get packet "fromId" (VStr "N/A")) with
  | inl e => ([ClearLine; TitleLines is_direct], Some e)
  | inr sender =>
      match body_line message_type decoded with
      | inl e =>
          ([ClearLine; TitleLines is_direct; FromLine sender; TypeLine message_type],
           Some e)
      | inr body =>
          ([ClearLine; TitleLines is_direct; FromLine sender; TypeLine message_type;
            body; SnrLine (dict_get packet "rxSnr" (VStr "N/A")); RuleLine;
            PromptLine], None)
      end
  end.

(** What is written for a packet that reaches line 53; an exception of
    the block is caught at line 110 and reported. *)
Definition shown (my_node_num : option Z) (nodes : gmap string (gmap string pyval))
    (packet : packet) : list packet_line :=
  match dict_get packet "decoded" VNone with
  | VDict decoded =>
      let message_type := dict_get decoded "portnum" (VStr "N_A") in
      match display my_node_num nodes packet decoded message_type with
      | (lines, Some e) => (lines ++ [ErrorLine e])%list
      | (lines, None) => lines
      end
  | _ => []
  end.

(** [on_receive] as a whole (lines 31-112): the ACK part, then what is
    written to the terminal. *)
Definition on_receive (my_node_num : option Z) (nodes : gmap string (gmap string pyval))
    (packet : packet) : prog (list packet_line) :=
  λ s, match CLI.on_receive packet s with
       | (Ok (ToDisplay p), s') => (Ok (shown my_node_num nodes p), s')
       | (Ok (ErrorPrinted e), s') => (Ok [ErrorLine (OfExn e)], s')
       | (Ok _, s') => (Ok [], s')
       | (Raise e, s') => (Raise e, s')
       end.

End Encoding.

End CLIDisplay.

(** * Properties *)

Ltac unfold_prog :=
  unfold CLI.on_receive, CLI.on_receive_try, GUI.on_packet_received,
    mbind, prog_bind, mret, prog_ret, lift, read_waiting, write_status,
    event_set, py_get in *.

Ltac split_branches :=
  repeat (simpl; rewrite ?negb_involutive;
    match goal with
    | |- context [negb ?c] => destruct c
    | |- context [if ?c then _ else _] => destruct c
    end).

Lemma eq_str_true v s : eq_str v s = true ↔ v = VStr s.
Proof.
  destruct v; simpl; try (split; [discriminate | congruence]).
  rewrite String.eqb_eq. split; congruence.
Qed.

#[global] Instance cli_correlator : Correlator CLI.on_receive.
Proof.
  split.
  - intros p s r s' Hcb Hr. unfold_prog.
    repeat (case_match; simplify_eq/=; try done).
  - intros p s s' Hcb. unfold_prog.
    repeat (case_match; simplify_eq/=; try done).
    repeat match goal with H : _ && _ = true |- _ => apply andb_prop in H as [? ?] end.
    done.
Qed.

#[global] Instance gui_correlator : Correlator GUI.on_packet_received.
Proof.
  split.
  - intros p s r s' Hcb Hr. unfold_prog.
    repeat (case_match; simplify_eq/=; try done).
  - intros p s s' Hcb. unfold_prog.
    repeat (case_match; simplify_eq/=; try done).
    all: repeat match goal with H : _ && _ = true |- _ => apply andb_prop in H as [? ?] end.
    all: done.
Qed.

(** [on_receive] with the sequencing spelled out. *)
Lemma cli_on_receive_unfold (p : packet) (s : ack_state) :
  CLI.on_receive p s =
    match dict_get p "decoded" VNone with
    | VDict d =>
        if bool_decide (d = ∅) then (Ok NoDecoded, s)
        else if expectation_matches (dict_get p "fromId" (VStr "N/A"))
                  (dict_get d "portnum" (VStr "N_A")) s
        then match dict_get d "routing" (VDict ∅) with
             | VDict r =>
                 (Ok AckHandled,
                  recorded (dict_get r "errorReason" (VStr "UNKNOWN_RESPONSE")) s)
             | _ => (Ok (ErrorPrinted AttributeError), s)
             end
        else (Ok (ToDisplay p), s)
    | v => if truthy v then (Ok (ErrorPrinted AttributeError), s)
           else (Ok NoDecoded, s)
    end.
Proof.
  unfold_prog. unfold expectation_matches, recorded.
  destruct (dict_get p "decoded" VNone) as [|b|z|q|t|[|v l]|d];
    try (by split_branches).
  split_branches; try done.
  all: by destruct (dict_get d "routing" (VDict ∅)).
Qed.

(** [on_packet_received] with the sequencing spelled out. *)
Lemma gui_on_packet_received_unfold (p : packet) (s : ack_state) :
  GUI.on_packet_received p s =
    if waiting_truthy (waiting_for_ack_from s)
       && eq_waiting (dict_get p "fromId" VNone) (waiting_for_ack_from s)
    then match dict_get p "decoded" (VDict ∅) with
         | VDict d =>
             if eq_str (dict_get d "portnum" VNone) "ROUTING_APP"
             then match dict_get d "routing" (VDict ∅) with
                  | VDict r =>
                      (Ok AckHandled,
                       recorded (dict_get r "errorReason" (VStr "UNKNOWN_RESPONSE")) s)
                  | _ => (Raise AttributeError, s)
                  end
             else (Ok (ToDisplay p), s)
         | _ => (Raise AttributeError, s)
         end
    else (Ok (ToDisplay p), s).
Proof.
  unfold_prog. unfold recorded.
  destruct (waiting_truthy (waiting_for_ack_from s)
            && eq_waiting (dict_get p "fromId" VNone) (waiting_for_ack_from s));
    simpl; [|done].
  destruct (dict_get p "decoded" (VDict ∅)) as [| | | | | |d]; simpl; try done.
  destruct (eq_str (dict_get d "portnum" VNone) "ROUTING_APP"); [|done].
  by destruct (dict_get d "routing" (VDict ∅)).
Qed.

(** ** No expectation armed *)

(** C5: when no expectation is armed ([waiting_for_ack_from] is [None]),
    a receive callback leaves the three ACK globals as they were and does
    not take the packet as an acknowledgment. The GUI queues every such
    packet for display; the CLI goes on to its display code for every
    packet that has a decoded payload. *)
Theorem unarmed_observe_is_frame (p : packet) (s : ack_state) :
  waiting_for_ack_from s = None →
  (∃ o, CLI.on_receive p s = (Ok o, s) ∧ o ≠ AckHandled
        ∧ (∀ d k v, p !! "decoded" = Some (VDict d) → d !! k = Some v →
                    o = ToDisplay p))
  ∧ GUI.on_packet_received p s = (Ok (ToDisplay p), s).
Proof.
  intros Hw. split.
  - rewrite cli_on_receive_unfold. unfold expectation_matches.
    rewrite Hw. simpl. unfold dict_get.
    destruct (p !! "decoded") as [dec|] eqn:Hdec; simpl.
    + destruct dec as [|b|z|q|t|[|v l]|d];
        try (by split_branches; eexists; (split; [reflexivity|]);
                (split; [done|]); intros; simplify_eq).
      case_bool_decide as Hd.
      * eexists; split; [reflexivity|]. split; [done|].
        intros d' k v [= <-] Hk. by rewrite Hd, lookup_empty in Hk.
      * eexists; split; [reflexivity|]. done.
    + eexists; split; [reflexivity|]. split; [done|]. intros; simplify_eq.
  - rewrite gui_on_packet_received_unfold. by rewrite Hw.
Qed.

Lemma unarmed_observe_is_frame_witness :
  CLI.on_receive (ack_packet "!aaaaaaaa" "NONE") initial_state
    = (Ok (ToDisplay (ack_packet "!aaaaaaaa" "NONE")), initial_state)
  ∧ GUI.on_packet_received (ack_packet "!aaaaaaaa" "NONE") initial_state
    = (Ok (ToDisplay (ack_packet "!aaaaaaaa" "NONE")), initial_state).
Proof.
  destruct (unarmed_observe_is_frame (ack_packet "!aaaaaaaa" "NONE") initial_state)
    as [(o & Hcli & _ & Hshow) Hgui]; [reflexivity|].
  split; [|exact Hgui].
  rewrite Hcli. f_equal. f_equal.
  eapply (Hshow _ "portnum"); reflexivity.
Defined.

(** ** Traffic that does not match the armed expectation *)

Lemma eq_str_neq v X : v ≠ VStr X → eq_str v X = false.
Proof.
  intros Hne. apply not_true_is_false. by rewrite eq_str_true.
Qed.

(** C6: while armed for [X], a ROUTING event whose source id differs from
    [X] is not taken as the acknowledgment: both callbacks leave the ACK
    globals unchanged and hand the very same packet to the display code.
    Likewise an event from [X] whose port is not ROUTING is never taken as
    the acknowledgment and changes nothing. *)
Theorem mismatched_event_not_consumed (p : packet) (s : ack_state) (X : node_id) :
  waiting_for_ack_from s = Some X →
  (∀ d v, routing_event p d → p !! "fromId" = Some v → v ≠ VStr X →
          CLI.on_receive p s = (Ok (ToDisplay p), s)
          ∧ GUI.on_packet_received p s = (Ok (ToDisplay p), s))
  ∧ (from_node p X → portnum_of p ≠ Some (VStr "ROUTING_APP") →
     (∃ o, CLI.on_receive p s = (Ok o, s) ∧ o ≠ AckHandled)
     ∧ (∃ r, GUI.on_packet_received p s = (r, s) ∧ r ≠ Ok AckHandled)).
Proof.
  intros Hw. split.
  - intros d v [Hdec Hport] Hfrom Hne.
    rewrite cli_on_receive_unfold, gui_on_packet_received_unfold.
    unfold expectation_matches, dict_get. rewrite Hw, Hdec, Hfrom. simpl.
    rewrite (eq_str_neq _ _ Hne), !andb_false_r. simpl.
    case_bool_decide as Hd; [|done].
    by rewrite Hd, lookup_empty in Hport.
  - intros Hfrom Hport. unfold from_node, portnum_of in *.
    assert (∀ d, p !! "decoded" = Some (VDict d) →
                 eq_str (dict_get d "portnum" (VStr "N_A")) "ROUTING_APP" = false
                 ∧ eq_str (dict_get d "portnum" VNone) "ROUTING_APP" = false)
      as Hnot.
    { intros d Hd. rewrite Hd in Hport. unfold dict_get.
      destruct (d !! "portnum") as [v|]; [|done].
      split; apply eq_str_neq; congruence. }
    rewrite cli_on_receive_unfold, gui_on_packet_received_unfold.
    unfold expectation_matches.
    unfold dict_get at 1 5 7. rewrite Hw. 
    destruct (p !! "decoded") as [[|b|z|q|t|[|v l]|d]|]; simpl;
      try (split; split_branches; eexists; (split; [reflexivity|done])).
    + destruct (Hnot d eq_refl) as [-> ->]. rewrite !andb_false_r.
      split; split_branches; eexists; (split; [reflexivity|done]).
    + unfold dict_get at 2. rewrite lookup_empty. simpl.
      split; split_branches; eexists; (split; [reflexivity|done]).
Qed.

Lemma mismatched_event_not_consumed_witness :
  (CLI.on_receive (ack_packet "!bbbbbbbb" "NONE") (arm "!aaaaaaaa" initial_state)
     = (Ok (ToDisplay (ack_packet "!bbbbbbbb" "NONE")), arm "!aaaaaaaa" initial_state)
   ∧ GUI.on_packet_received (ack_packet "!bbbbbbbb" "NONE") (arm "!aaaaaaaa" initial_state)
     = (Ok (ToDisplay (ack_packet "!bbbbbbbb" "NONE")), arm "!aaaaaaaa" initial_state))
  ∧ ((∃ o, CLI.on_receive (text_packet "!aaaaaaaa" "hi") (arm "!aaaaaaaa" initial_state)
            = (Ok o, arm "!aaaaaaaa" initial_state) ∧ o ≠ AckHandled)
     ∧ (∃ r, GUI.on_packet_received (text_packet "!aaaaaaaa" "hi") (arm "!aaaaaaaa" initial_state)
            = (r, arm "!aaaaaaaa" initial_state) ∧ r ≠ Ok AckHandled)).
Proof.
  split.
  - eapply (mismatched_event_not_consumed (ack_packet "!bbbbbbbb" "NONE")
              (arm "!aaaaaaaa" initial_state) "!aaaaaaaa" eq_refl).
    + split; reflexivity.
    + reflexivity.
    + discriminate.
  - apply (mismatched_event_not_consumed (text_packet "!aaaaaaaa" "hi")
             (arm "!aaaaaaaa" initial_state) "!aaaaaaaa" eq_refl).
    + reflexivity.
    + vm_compute. discriminate.
Defined.


(** ** A matching acknowledgment *)

Lemma matching_routing_get (d r : gmap string pyval) :
  routing_payload d = Some r → dict_get d "routing" (VDict ∅) = VDict r.
Proof.
  unfold routing_payload, dict_get.
  destruct (d !! "routing") as [[]|]; intros; by simplify_eq.
Qed.

Section Matching.

Context (p : packet) (s : ack_state) (X : node_id).
Context (d r : gmap string pyval).
Hypothesis X_truthy : X ≠ "".
Hypothesis armed : waiting_for_ack_from s = Some X.
Hypothesis from_X : from_node p X.
Hypothesis is_routing : routing_event p d.
Hypothesis payload : routing_payload d = Some r.

Lemma matching_condition v :
  waiting_truthy (Some X) && eq_waiting (dict_get p "fromId" v) (Some X) = true.
Proof.
  unfold dict_get. rewrite from_X. simpl.
  rewrite String.eqb_refl, andb_true_r.
  by apply negb_true_iff, String.eqb_neq.
Qed.

Lemma cli_matching_recorded :
  CLI.on_receive p s = (Ok AckHandled, recorded (carried_reason r) s).
Proof.
  destruct is_routing as [Hdec Hport].
  rewrite cli_on_receive_unfold. unfold expectation_matches.
  rewrite armed, matching_condition.
  unfold dict_get at 1. rewrite Hdec.
  unfold dict_get at 1. rewrite Hport. simpl.
  rewrite (matching_routing_get _ _ payload).
  case_bool_decide as Hd; [|done].
  by rewrite Hd, lookup_empty in Hport.
Qed.

Lemma gui_matching_recorded :
  GUI.on_packet_received p s = (Ok AckHandled, recorded (carried_reason r) s).
Proof.
  destruct is_routing as [Hdec Hport].
  rewrite gui_on_packet_received_unfold.
  rewrite armed, matching_condition.
  unfold dict_get at 1. rewrite Hdec.
  unfold dict_get at 1. rewrite Hport. simpl.
  by rewrite (matching_routing_get _ _ payload).
Qed.

End Matching.

(** Without a truthy [waiting_for_ack_from] a correlator callback is a
    no-op that never withholds the packet. *)
Lemma unarmed_frame `{Correlator callback} (p : packet) (s : ack_state) :
  waiting_truthy (waiting_for_ack_from s) = false →
  ∃ res, callback p s = (res, s) ∧ res ≠ Ok AckHandled.
Proof.
  intros Hw. destruct (callback p s) as [res s'] eqn:Hcb.
  assert (res ≠ Ok AckHandled) as Hres.
  { intros ->. apply cb_handled in Hcb as [Ht _]. congruence. }
  exists res. split; [|done]. f_equal. by eapply cb_frame.
Qed.

(** C1, as stated, fails: the callback leaves [waiting_for_ack_from] set,
    so a second ROUTING event from the same node that arrives before the
    sender's second critical section is taken as the acknowledgment as
    well, without any new arm, and replaces the recorded reason. *)
Lemma second_matching_event_also_consumed :
  run CLI.on_receive
      [Spawn "bob" "!aaaaaaaa"; Arm 0; Send 0 (Ok ()); WaitEnter 0;
       Receive (ack_packet "!aaaaaaaa" "NONE");
       Receive (ack_packet "!aaaaaaaa" "NO_RESPONSE");
       WaitReturn 0 1; Disarm 0] initial_sys
  = Some {| acks := {| ack_received_event := true;
                       ack_response_status := VStr "NO_RESPONSE";
                       waiting_for_ack_from := None |};
            threads := [mk_thread "bob" "!aaaaaaaa"
                          (Done (DeliveryFailed "bob" (VStr "NO_RESPONSE")))];
            display := [Shown AckHandled; Shown AckHandled;
                        Notice 0 (DeliveryFailed "bob" (VStr "NO_RESPONSE"))] |}
  ∧ run GUI.on_packet_received
      [Spawn "bob" "!aaaaaaaa"; Arm 0; Send 0 (Ok ()); WaitEnter 0;
       Receive (ack_packet "!aaaaaaaa" "NONE");
       Receive (ack_packet "!aaaaaaaa" "NO_RESPONSE");
       WaitReturn 0 1; Disarm 0] initial_sys
  = Some {| acks := {| ack_received_event := true;
                       ack_response_status := VStr "NO_RESPONSE";
                       waiting_for_ack_from := None |};
            threads := [mk_thread "bob" "!aaaaaaaa"
                          (Done (DeliveryFailed "bob" (VStr "NO_RESPONSE")))];
            display := [Shown AckHandled; Shown AckHandled;
                        Notice 0 (DeliveryFailed "bob" (VStr "NO_RESPONSE"))] |}.
Proof. split; vm_compute; reflexivity. Qed.

(** C1, amended: while armed for a non-empty [X], every ROUTING event
    from [X] is taken as the acknowledgment (its reason recorded over any
    earlier one, the event set, the packet withheld from display) and the
    expectation stays armed for [X]; once the sender's second critical
    section has run, no packet is taken as an acknowledgment until the
    next arm. *)
Theorem armed_match_consumed_until_disarm
    (p : packet) (s : ack_state) (X : node_id) (d r : gmap string pyval) :
  X ≠ "" →
  waiting_for_ack_from s = Some X →
  from_node p X →
  routing_event p d →
  routing_payload d = Some r →
  let s1 := recorded (carried_reason r) s in
  CLI.on_receive p s = (Ok AckHandled, s1)
  ∧ GUI.on_packet_received p s = (Ok AckHandled, s1)
  ∧ ack_response_status s1 = carried_reason r
  ∧ ack_received_event s1 = true
  ∧ waiting_for_ack_from s1 = Some X
  ∧ ∀ p', (∃ res, CLI.on_receive p' (disarm s1).2 = (res, (disarm s1).2)
                  ∧ res ≠ Ok AckHandled)
          ∧ (∃ res, GUI.on_packet_received p' (disarm s1).2 = (res, (disarm s1).2)
                    ∧ res ≠ Ok AckHandled).
Proof.
  intros HX Hw Hfrom Hrt Hpay s1.
  split; [by eapply cli_matching_recorded|].
  split; [by eapply gui_matching_recorded|].
  repeat split; try done.
  all: by apply unarmed_frame.
Qed.

Lemma armed_match_consumed_until_disarm_witness :
  CLI.on_receive (ack_packet "!aaaaaaaa" "NONE") (arm "!aaaaaaaa" initial_state)
  = (Ok AckHandled,
     {| ack_received_event := true;
        ack_response_status := VStr "NONE";
        waiting_for_ack_from := Some "!aaaaaaaa" |}).
Proof.
  refine (proj1 (armed_match_consumed_until_disarm
            (ack_packet "!aaaaaaaa" "NONE") (arm "!aaaaaaaa" initial_state)
            "!aaaaaaaa"
            {[ "portnum" := VStr "ROUTING_APP";
               "routing" := VDict {[ "errorReason" := VStr "NONE" ]} ]}
            {[ "errorReason" := VStr "NONE" ]} _ _ _ _ _)).
  - discriminate.
  - reflexivity.
  - reflexivity.
  - split; reflexivity.
  - reflexivity.
Defined.

(** ** The value read back by the sender *)

Lemma carried_reason_field (r : gmap string pyval) (v : pyval) :
  r !! "errorReason" = Some v → carried_reason r = v.
Proof. intros Hr. unfold carried_reason, dict_get. by rewrite Hr. Qed.

Lemma classify_cases (target : string) (status : pyval) :
  (status = VStr "NONE" → classify target status = Delivered target)
  ∧ (status = VStr "UNKNOWN" → classify target status = NoAckTimeout)
  ∧ (status ≠ VStr "NONE" → status ≠ VStr "UNKNOWN" →
     classify target status = DeliveryFailed target status).
Proof.
  unfold classify. repeat split.
  - by intros ->.
  - by intros ->.
  - intros H1 H2. by rewrite !eq_str_neq.
Qed.

(** C4, as stated, fails: a consumed acknowledgment that carries the
    value ['UNKNOWN'] is a carried value other than ['NONE'], yet the
    sender reports a timeout and not a failure with that reason. *)
Lemma carried_unknown_not_reported_as_failure :
  run CLI.on_receive
      [Spawn "bob" "!aaaaaaaa"; Arm 0; Send 0 (Ok ()); WaitEnter 0;
       Receive (ack_packet "!aaaaaaaa" "UNKNOWN");
       WaitReturn 0 1; Disarm 0] initial_sys
  = Some {| acks := {| ack_received_event := true;
                       ack_response_status := VStr "UNKNOWN";
                       waiting_for_ack_from := None |};
            threads := [mk_thread "bob" "!aaaaaaaa" (Done NoAckTimeout)];
            display := [Shown AckHandled; Notice 0 NoAckTimeout] |}
  ∧ classify "bob" (VStr "UNKNOWN") ≠ DeliveryFailed "bob" (VStr "UNKNOWN").
Proof. split; [vm_compute; reflexivity | discriminate]. Qed.

(** C9: the timeout sentinel is in-band. A matching ROUTING event that
    carries the reason ['UNKNOWN'] is taken as the acknowledgment, and the
    sender then reports exactly what it reports when nothing arrived after
    the arm: no acknowledgment (timeout). *)
Theorem carried_unknown_reported_as_timeout
    (p : packet) (s0 : ack_state) (X : node_id) (d r : gmap string pyval)
    (target : string) :
  X ≠ "" →
  from_node p X →
  routing_event p d →
  routing_payload d = Some r →
  r !! "errorReason" = Some (VStr "UNKNOWN") →
  (CLI.on_receive p (arm X s0)).1 = Ok AckHandled
  ∧ (GUI.on_packet_received p (arm X s0)).1 = Ok AckHandled
  ∧ classify target (disarm (CLI.on_receive p (arm X s0)).2).1 = NoAckTimeout
  ∧ classify target (disarm (GUI.on_packet_received p (arm X s0)).2).1 = NoAckTimeout
  ∧ classify target (disarm (arm X s0)).1 = NoAckTimeout.
Proof.
  intros HX Hfrom Hrt Hpay Hv.
  rewrite (cli_matching_recorded p (arm X s0) X d r),
    (gui_matching_recorded p (arm X s0) X d r) by done.
  simpl. by rewrite (carried_reason_field _ _ Hv).
Qed.

Lemma carried_unknown_reported_as_timeout_witness :
  classify "bob" (disarm (CLI.on_receive (ack_packet "!aaaaaaaa" "UNKNOWN")
                            (arm "!aaaaaaaa" initial_state)).2).1
  = NoAckTimeout.
Proof.
  refine (proj1 (proj2 (proj2 (carried_unknown_reported_as_timeout
            (ack_packet "!aaaaaaaa" "UNKNOWN") initial_state "!aaaaaaaa"
            {[ "portnum" := VStr "ROUTING_APP";
               "routing" := VDict {[ "errorReason" := VStr "UNKNOWN" ]} ]}
            {[ "errorReason" := VStr "UNKNOWN" ]} "bob" _ _ _ _ _)))).
  - discriminate.
  - reflexivity.
  - split; reflexivity.
  - reflexivity.
  - reflexivity.
Defined.

(** ** Packets with fields missing *)

(** C8, as stated, fails: a matching ROUTING event without an
    [errorReason] field is not passed on as ordinary traffic. It is taken
    as the acknowledgment, with ['UNKNOWN_RESPONSE'] recorded, and the
    sender reports a failure. *)
Lemma routing_without_reason_is_consumed :
  CLI.on_receive (routing_packet "!aaaaaaaa" ∅) (arm "!aaaaaaaa" initial_state)
  = (Ok AckHandled,
     {| ack_received_event := true;
        ack_response_status := VStr "UNKNOWN_RESPONSE";
        waiting_for_ack_from := Some "!aaaaaaaa" |})
  ∧ GUI.on_packet_received (routing_packet "!aaaaaaaa" ∅) (arm "!aaaaaaaa" initial_state)
  = (Ok AckHandled,
     {| ack_received_event := true;
        ack_response_status := VStr "UNKNOWN_RESPONSE";
        waiting_for_ack_from := Some "!aaaaaaaa" |}).
Proof. split; vm_compute; reflexivity. Qed.

Lemma cli_on_receive_never_raises (p : packet) (s : ack_state) :
  ∃ o s', CLI.on_receive p s = (Ok o, s').
Proof.
  unfold CLI.on_receive.
  destruct (CLI.on_receive_try p s) as [[o|e] s']; eauto.
Qed.

(** C8, amended: a packet without a decoded payload is never taken as an
    acknowledgment and changes no ACK global (the CLI callback returns
    before its display code, the GUI callback queues the packet for
    display); a matching ROUTING event whose routing payload has no
    [errorReason] field is taken as the acknowledgment with
    ['UNKNOWN_RESPONSE'] recorded; neither case raises into the feed, and
    the CLI callback raises for no packet at all. *)
Theorem missing_fields_handling (p : packet) (s : ack_state) :
  (p !! "decoded" = None →
   CLI.on_receive p s = (Ok NoDecoded, s)
   ∧ GUI.on_packet_received p s = (Ok (ToDisplay p), s))
  ∧ (∀ X d r,
       X ≠ "" → waiting_for_ack_from s = Some X → from_node p X →
       routing_event p d → routing_payload d = Some r →
       r !! "errorReason" = None →
       CLI.on_receive p s = (Ok AckHandled, recorded (VStr "UNKNOWN_RESPONSE") s)
       ∧ GUI.on_packet_received p s
         = (Ok AckHandled, recorded (VStr "UNKNOWN_RESPONSE") s))
  ∧ (∃ o s', CLI.on_receive p s = (Ok o, s')).
Proof.
  split; [|split].
  - intros Hdec.
    rewrite cli_on_receive_unfold, gui_on_packet_received_unfold.
    assert (dict_get p "decoded" VNone = VNone
            ∧ dict_get p "decoded" (VDict ∅) = VDict ∅) as [-> ->].
    { unfold dict_get. by rewrite Hdec. }
    simpl. unfold dict_get at 2. rewrite lookup_empty. simpl.
    split; [done|]. by split_branches.
  - intros X d r HX Hw Hfrom Hrt Hpay Hr.
    rewrite (cli_matching_recorded p s X d r), (gui_matching_recorded p s X d r)
      by done.
    unfold carried_reason, dict_get. by rewrite Hr.
  - apply cli_on_receive_never_raises.
Qed.

Lemma missing_fields_handling_witness :
  (CLI.on_receive {[ "fromId" := VStr "!aaaaaaaa" ]} initial_state
   = (Ok NoDecoded, initial_state)
   ∧ GUI.on_packet_received {[ "fromId" := VStr "!aaaaaaaa" ]} initial_state
     = (Ok (ToDisplay {[ "fromId" := VStr "!aaaaaaaa" ]}), initial_state))
  ∧ CLI.on_receive (routing_packet "!aaaaaaaa" ∅) (arm "!aaaaaaaa" initial_state)
    = (Ok AckHandled,
       recorded (VStr "UNKNOWN_RESPONSE") (arm "!aaaaaaaa" initial_state)).
Proof.
  split.
  - apply (proj1 (missing_fields_handling
                    {[ "fromId" := VStr "!aaaaaaaa" ]} initial_state)).
    reflexivity.
  - refine (proj1 (proj1 (proj2 (missing_fields_handling
              (routing_packet "!aaaaaaaa" ∅) (arm "!aaaaaaaa" initial_state)))
              "!aaaaaaaa"
              {[ "portnum" := VStr "ROUTING_APP"; "routing" := VDict ∅ ]}
              ∅ _ _ _ _ _ _)).
    + discriminate.
    + reflexivity.
    + reflexivity.
    + split; reflexivity.
    + reflexivity.
    + reflexivity.
Defined.

(** ** Runs of the interleaved system *)

Lemma tool_callback_correlator callback :
  tool_callback callback → Correlator callback.
Proof. intros [-> | ->]; apply _. Qed.

Section Runs.

Context (callback : packet → prog receive_outcome).

Lemma run_app (l1 l2 : list label) (σ : sys) :
  run callback (l1 ++ l2) σ = run callback l1 σ ≫= run callback l2.
Proof.
  revert σ. induction l1 as [|l l1 IH]; intros σ; simpl; [done|].
  destruct (step callback l σ); simpl; [apply IH | done].
Qed.

Lemma run_snoc (ls : list label) (l : label) (σ σ' : sys) :
  run callback (ls ++ [l]) σ = Some σ' ↔
  ∃ σ1, run callback ls σ = Some σ1 ∧ step callback l σ1 = Some σ'.
Proof.
  rewrite run_app. destruct (run callback ls σ) as [σ1|]; simpl.
  - destruct (step callback l σ1) as [σ2|] eqn:Hs; simpl.
    + split; [intros [= <-]; eauto | intros (? & [= <-] & ?); congruence].
    + split; [done | intros (? & [= <-] & ?); congruence].
  - split; [done | intros (? & ? & ?); done].
Qed.

(** Inversion of one step: what each label does to the ACK globals and
    to the log. *)
Lemma step_inv (l : label) (σ σ' : sys) :
  step callback l σ = Some σ' →
  match l with
  | Arm tid =>
      ∃ t, threads σ !! tid = Some t ∧ at_pc t = AtArm
           ∧ acks σ' = arm (destination_node_id t) (acks σ)
           ∧ threads σ' = <[tid := set_pc AtSend t]> (threads σ)
           ∧ display σ' = display σ
  | Disarm tid =>
      ∃ t, threads σ !! tid = Some t ∧ at_pc t = AtDisarm
           ∧ acks σ' = (disarm (acks σ)).2
           ∧ threads σ'
             = <[tid := set_pc (Done (classify (target_identifier t)
                                        (disarm (acks σ)).1)) t]> (threads σ)
           ∧ display σ'
             = (display σ ++ [Notice tid (classify (target_identifier t)
                                            (disarm (acks σ)).1)])%list
  | Receive p =>
      ∃ res, callback p (acks σ) = (res, acks σ')
             ∧ display σ'
               = (display σ ++ [match res with
                                | Ok o => Shown o
                                | Raise e => FeedException e
                                end])%list
  | Send tid res =>
      acks σ' = acks σ
      ∧ ∃ t, threads σ !! tid = Some t ∧ at_pc t = AtSend
             ∧ match res with
               | Ok _ => threads σ' = <[tid := set_pc AtWait t]> (threads σ)
                         ∧ display σ' = display σ
               | Raise e =>
                   threads σ' = <[tid := set_pc (Done (SendFailed e)) t]> (threads σ)
                   ∧ display σ' = (display σ ++ [Notice tid (SendFailed e)])%list
               end
  | WaitReturn tid elapsed =>
      acks σ' = acks σ ∧ display σ' = display σ
      ∧ Qle_bool 0 elapsed = true ∧ Qle_bool elapsed ACK_TIMEOUT = true
  | Spawn _ _ | WaitEnter _ =>
      acks σ' = acks σ ∧ display σ' = display σ
  end.
Proof.
  destruct l as [target dest|tid|tid res|tid|tid elapsed|tid|p]; simpl; intros Hstep.
  - by case_match; simplify_eq.
  - destruct (threads σ !! tid) as [t|]; simplify_eq/=.
    destruct (at_pc t) eqn:Hpc; simplify_eq. by exists t.
  - destruct (threads σ !! tid) as [t|]; simplify_eq/=.
    destruct (at_pc t) eqn:Hpc, res; simplify_eq; (split; [done|]); by exists t.
  - destruct (threads σ !! tid) as [t|]; simplify_eq/=.
    by destruct (at_pc t); simplify_eq.
  - destruct (threads σ !! tid) as [t|]; simplify_eq/=.
    destruct (at_pc t); simplify_eq.
    destruct (Qle_bool 0 elapsed) eqn:H0, (Qle_bool elapsed ACK_TIMEOUT) eqn:H1;
      simpl in *; simplify_eq.
    by case_match; simplify_eq.
  - destruct (threads σ !! tid) as [t|]; simplify_eq/=.
    destruct (at_pc t) eqn:Hpc; simplify_eq. by exists t.
  - destruct (callback p (acks σ)) as [[o|e] s'] eqn:Hcb; simplify_eq;
      by eexists.
Qed.

End Runs.

(** ** A send that raises *)

(** C2: the code misses the cleanup the claim asks for. When [sendText]
    raises, the handler only reports the failure, while the path on which
    the send returns clears [waiting_for_ack_from] (CLI line 410, GUI line
    437). Here the destination stays armed after the failed send, and a
    later ROUTING packet from that node is still withheld as an
    acknowledgment. *)
Lemma send_error_leaves_expectation_armed :
  run CLI.on_receive
      [Spawn "bob" "!aaaaaaaa"; Arm 0;
       Send 0 (Raise (TransportError "not connected"));
       Receive (ack_packet "!aaaaaaaa" "NONE")] initial_sys
  = Some {| acks := {| ack_received_event := true;
                       ack_response_status := VStr "NONE";
                       waiting_for_ack_from := Some "!aaaaaaaa" |};
            threads := [mk_thread "bob" "!aaaaaaaa"
                          (Done (SendFailed (TransportError "not connected")))];
            display := [Notice 0 (SendFailed (TransportError "not connected"));
                        Shown AckHandled] |}
  ∧ run GUI.on_packet_received
      [Spawn "bob" "!aaaaaaaa"; Arm 0;
       Send 0 (Raise (TransportError "not connected"))] initial_sys
  = Some {| acks := {| ack_received_event := false;
                       ack_response_status := VStr "UNKNOWN";
                       waiting_for_ack_from := Some "!aaaaaaaa" |};
            threads := [mk_thread "bob" "!aaaaaaaa"
                          (Done (SendFailed (TransportError "not connected")))];
            display := [Notice 0 (SendFailed (TransportError "not connected"))] |}.
Proof. split; vm_compute; reflexivity. Qed.

Lemma run_cons callback (l : label) (ls : list label) (σ : sys) :
  run callback (l :: ls) σ = step callback l σ ≫= run callback ls.
Proof. done. Qed.

(** ** Several senders *)

(** C3, as stated, fails: nothing rejects or delays a second sender.
    Two cycles overlap, the second arm replaces the first expectation, and
    the single acknowledgment from the second destination is reported as a
    delivery by both senders. *)
Lemma two_cycles_interleave :
  (run CLI.on_receive
       [Spawn "alice" "!aaaaaaaa"; Spawn "bob" "!bbbbbbbb"; Arm 0; Arm 1]
       initial_sys
     ≫= λ σ, Some (count_outstanding σ, waiting_for_ack_from (acks σ)))
  = Some (2, Some "!bbbbbbbb")
  ∧ (run CLI.on_receive
       [Spawn "alice" "!aaaaaaaa"; Spawn "bob" "!bbbbbbbb"; Arm 0; Arm 1;
        Send 0 (Ok ()); Send 1 (Ok ()); WaitEnter 0; WaitEnter 1;
        Receive (ack_packet "!bbbbbbbb" "NONE");
        WaitReturn 0 2; WaitReturn 1 2; Disarm 0; Disarm 1]
       initial_sys
     ≫= λ σ, Some (display σ))
  = Some [Shown AckHandled; Notice 0 (Delivered "alice");
          Notice 1 (Delivered "bob")].
Proof. split; vm_compute; reflexivity. Qed.

Lemma count_outstanding_insert (ts : list thread) (tid : nat) (t t' : thread) :
  ts !! tid = Some t →
  outstanding t = false →
  outstanding t' = true →
  length (filter (λ t, outstanding t = true) (<[tid := t']> ts))
  = S (length (filter (λ t, outstanding t = true) ts)).
Proof.
  intros Hts Ht Ht'.
  apply list_elem_of_split_length in Hts as (l1 & l2 & -> & ->).
  rewrite insert_app_r_alt, Nat.sub_diag by done. simpl.
  rewrite !filter_app, !filter_cons, !length_app.
  rewrite decide_True by done. rewrite decide_False by congruence.
  simpl. lia.
Qed.

(** C3, amended: the correlator has a single slot, and no sender is ever
    rejected or made to wait for another: whenever a sender stands before
    its first critical section the arm step is enabled, it overwrites
    whatever expectation was recorded, and it adds one more outstanding
    cycle to those already under way. *)
Theorem arm_never_rejected
    (callback : packet → prog receive_outcome) (σ : sys) (tid : nat) (t : thread) :
  threads σ !! tid = Some t →
  at_pc t = AtArm →
  ∃ σ', step callback (Arm tid) σ = Some σ'
        ∧ acks σ' = arm (destination_node_id t) (acks σ)
        ∧ waiting_for_ack_from (acks σ') = Some (destination_node_id t)
        ∧ count_outstanding σ' = S (count_outstanding σ).
Proof.
  intros Ht Hpc.
  exists {| acks := arm (destination_node_id t) (acks σ);
            threads := <[tid := set_pc AtSend t]> (threads σ);
            display := display σ |}.
  split. { simpl. rewrite Ht. simpl. by rewrite Hpc. }
  repeat split. unfold count_outstanding. simpl.
  apply (count_outstanding_insert _ _ t); [done| |done].
  unfold outstanding. by rewrite Hpc.
Qed.

Lemma arm_never_rejected_witness :
  ∃ σ', step CLI.on_receive (Arm 1)
          {| acks := arm "!aaaaaaaa" initial_state;
             threads := [mk_thread "alice" "!aaaaaaaa" AtSend;
                         mk_thread "bob" "!bbbbbbbb" AtArm];
             display := [] |} = Some σ'
        ∧ waiting_for_ack_from (acks σ') = Some "!bbbbbbbb"
        ∧ count_outstanding σ' = 2.
Proof.
  destruct (arm_never_rejected CLI.on_receive
              {| acks := arm "!aaaaaaaa" initial_state;
                 threads := [mk_thread "alice" "!aaaaaaaa" AtSend;
                             mk_thread "bob" "!bbbbbbbb" AtArm];
                 display := [] |}
              1 (mk_thread "bob" "!bbbbbbbb" AtArm) eq_refl eq_refl)
    as (σ' & Hstep & _ & Hw & Hn).
  exists σ'. split; [exact Hstep|]. split; [exact Hw | exact Hn].
Defined.

(** ** No acknowledgment within the wait *)

Lemma handled_count_snoc (log : list shown) (e : shown) :
  handled_count (log ++ [e])
  = (handled_count log + if is_handled e then 1 else 0)%nat.
Proof.
  unfold handled_count. rewrite filter_app, length_app, filter_cons.
  case_decide as He; rewrite filter_nil.
  - by rewrite He.
  - by apply not_true_is_false in He as ->.
Qed.

Section Unmatched.

Context (callback : packet → prog receive_outcome) `{!Correlator callback}.

Lemma step_handled_mono (l : label) (σ σ' : sys) :
  step callback l σ = Some σ' →
  (handled_count (display σ) ≤ handled_count (display σ'))%nat.
Proof.
  intros Hstep. apply step_inv in Hstep.
  destruct l as [| |tid [|]| | | |]; simpl in Hstep.
  - by destruct Hstep as [_ ->].
  - by destruct Hstep as (t & _ & _ & _ & _ & ->).
  - by destruct Hstep as (_ & t & _ & _ & _ & ->).
  - destruct Hstep as (_ & t & _ & _ & _ & ->). rewrite handled_count_snoc. lia.
  - by destruct Hstep as [_ ->].
  - by destruct Hstep as (_ & -> & _).
  - destruct Hstep as (t & _ & _ & _ & _ & ->). rewrite handled_count_snoc. lia.
  - destruct Hstep as (res & _ & ->). rewrite handled_count_snoc. lia.
Qed.

Lemma run_handled_mono (ls : list label) (σ σ' : sys) :
  run callback ls σ = Some σ' →
  (handled_count (display σ) ≤ handled_count (display σ'))%nat.
Proof.
  revert σ. induction ls as [|l ls IH]; intros σ; simpl.
  - by intros [= ->].
  - destruct (step callback l σ) as [σ1|] eqn:Hstep; simpl; [|done].
    intros Hrun. apply step_handled_mono in Hstep. apply IH in Hrun. lia.
Qed.

(** A step that logs no withheld acknowledgment keeps a status of
    ['UNKNOWN']. *)
Lemma step_keeps_unknown (l : label) (σ σ' : sys) :
  step callback l σ = Some σ' →
  handled_count (display σ') = handled_count (display σ) →
  ack_response_status (acks σ) = VStr "UNKNOWN" →
  ack_response_status (acks σ') = VStr "UNKNOWN".
Proof.
  intros Hstep Hcount Hst. apply step_inv in Hstep.
  destruct l as [| |tid sres| | | |]; simpl in Hstep.
  - destruct Hstep as [-> _]. done.
  - by destruct Hstep as (t & _ & _ & -> & _).
  - by destruct Hstep as (-> & _).
  - by destruct Hstep as [-> _].
  - by destruct Hstep as (-> & _).
  - by destruct Hstep as (t & _ & _ & -> & _).
  - destruct Hstep as (res & Hcb & Hlog).
    rewrite Hlog, handled_count_snoc in Hcount.
    assert (res ≠ Ok AckHandled) as Hres.
    { intros ->. simpl in Hcount. lia. }
    by rewrite (cb_frame _ _ _ _ Hcb Hres).
Qed.

Lemma run_keeps_unknown (ls : list label) (σ σ' : sys) :
  run callback ls σ = Some σ' →
  handled_count (display σ') = handled_count (display σ) →
  ack_response_status (acks σ) = VStr "UNKNOWN" →
  ack_response_status (acks σ') = VStr "UNKNOWN".
Proof.
  revert σ. induction ls as [|l ls IH]; intros σ; simpl.
  - by intros [= ->].
  - destruct (step callback l σ) as [σ1|] eqn:Hstep; simpl; [|done].
    intros Hrun Hcount Hst.
    pose proof (step_handled_mono _ _ _ Hstep).
    pose proof (run_handled_mono _ _ _ Hrun).
    apply (IH σ1); [done | lia |].
    eapply step_keeps_unknown; [done | lia | done].
Qed.

Lemma run_wait_bounded (ls : list label) (σ σ' : sys) (tid : nat) (elapsed : Q) :
  run callback ls σ = Some σ' →
  WaitReturn tid elapsed ∈ ls →
  (0 <= elapsed)%Q ∧ (elapsed <= ACK_TIMEOUT)%Q.
Proof.
  revert σ. induction ls as [|l ls IH]; intros σ; simpl.
  - intros _ Hin. by apply not_elem_of_nil in Hin.
  - destruct (step callback l σ) as [σ1|] eqn:Hstep; simpl; [|done].
    intros Hrun [<-|Hin]%elem_of_cons; [|by eapply IH].
    apply step_inv in Hstep as (_ & _ & H0 & H1).
    by rewrite <- !Qle_bool_iff.
Qed.

End Unmatched.

Lemma wait_can_time_out callback (σ : sys) (tid : nat) (t : thread) (woken : bool) :
  threads σ !! tid = Some t →
  at_pc t = Waiting woken →
  is_Some (step callback (WaitReturn tid ACK_TIMEOUT) σ).
Proof.
  intros Ht Hpc. simpl. rewrite Ht. simpl. rewrite Hpc.
  replace (Qle_bool 0 ACK_TIMEOUT) with true by done.
  replace (Qle_bool ACK_TIMEOUT ACK_TIMEOUT) with true by done.
  replace (Qeq_bool ACK_TIMEOUT ACK_TIMEOUT) with true by done.
  rewrite orb_true_r. simpl. by eexists.
Qed.

(** C7: take a sender's whole cycle, from its arm to its second critical
    section, in any interleaving with the feed and with other senders. If
    no packet was withheld as an acknowledgment in between, the sender
    reads back ['UNKNOWN'] and reports "no acknowledgment (timeout)", which
    is neither a failure notice nor an exception. Every return from the
    wait happens within the 15 second timeout, and a waiting sender can
    always return at the timeout. *)
Theorem unmatched_wait_times_out
    (callback : packet → prog receive_outcome) (σ0 σ : sys) (tid : nat)
    (ls : list label) :
  tool_callback callback →
  run callback (Arm tid :: ls ++ [Disarm tid]) σ0 = Some σ →
  handled_count (display σ) = handled_count (display σ0) →
  (∃ t, threads σ !! tid = Some t ∧ at_pc t = Done NoAckTimeout)
  ∧ (∃ log, display σ = (log ++ [Notice tid NoAckTimeout])%list)
  ∧ (∀ tid' elapsed, WaitReturn tid' elapsed ∈ ls → (elapsed <= 15)%Q)
  ∧ (∀ σ' t woken, threads σ' !! tid = Some t → at_pc t = Waiting woken →
                   is_Some (step callback (WaitReturn tid 15) σ')).
Proof.
  intros Hcb%tool_callback_correlator Hrun Hcount.
  rewrite run_cons in Hrun.
  destruct (step callback (Arm tid) σ0) as [σ1|] eqn:Harm; [|done].
  simpl in Hrun. apply run_snoc in Hrun as (σ2 & Hrun & Hdis).
  pose proof (step_handled_mono _ _ _ _ Harm) as Hm1.
  pose proof (run_handled_mono _ _ _ _ Hrun) as Hm2.
  pose proof (step_handled_mono _ _ _ _ Hdis) as Hm3.
  assert (ack_response_status (acks σ2) = VStr "UNKNOWN") as Hst.
  { apply (run_keeps_unknown callback ls σ1 σ2 Hrun); [lia|].
    by apply step_inv in Harm as (t & _ & _ & -> & _). }
  apply step_inv in Hdis as (t & Ht & Hpc & _ & Hts & Hlog).
  simpl in Hts, Hlog. rewrite Hst in Hts, Hlog.
  change (classify (target_identifier t) (VStr "UNKNOWN")) with NoAckTimeout
    in Hts, Hlog.
  split.
  { exists (set_pc (Done NoAckTimeout) t). split; [|done]. rewrite Hts.
    apply list_lookup_insert_eq. by eapply lookup_lt_Some. }
  split; [by eexists|].
  split.
  - intros tid' elapsed Hin.
    by destruct (run_wait_bounded _ _ _ _ _ _ Hrun Hin).
  - intros σ' t' woken. apply wait_can_time_out.
Qed.

Lemma unmatched_wait_times_out_witness :
  ∃ log, display {| acks := {| ack_received_event := false;
                               ack_response_status := VStr "UNKNOWN";
                               waiting_for_ack_from := None |};
                    threads := [mk_thread "bob" "!bbbbbbbb" (Done NoAckTimeout)];
                    display := [Shown (ToDisplay (text_packet "!cccccccc" "hi"));
                                Notice 0 NoAckTimeout] |}
         = (log ++ [Notice 0 NoAckTimeout])%list.
Proof.
  refine (proj1 (proj2 (unmatched_wait_times_out CLI.on_receive
            {| acks := initial_state;
               threads := [mk_thread "bob" "!bbbbbbbb" AtArm];
               display := [] |}
            _ 0
            [Send 0 (Ok ()); WaitEnter 0;
             Receive (text_packet "!cccccccc" "hi"); WaitReturn 0 15]
            _ _ _))).
  - left. reflexivity.
  - vm_compute. reflexivity.
  - reflexivity.
Defined.

(** ** Where a recorded status comes from *)

Section Provenance.

Context (callback : packet → prog receive_outcome) `{!Correlator callback}.

(** Apart from an arm, only a callback that takes a packet as the
    acknowledgment changes the recorded status. *)
Lemma step_status (l : label) (σ σ' : sys) :
  step callback l σ = Some σ' →
  is_arm l = false →
  ack_response_status (acks σ') = ack_response_status (acks σ)
  ∨ ∃ p, l = Receive p ∧ callback p (acks σ) = (Ok AckHandled, acks σ').
Proof.
  intros Hstep Harm. pose proof (step_inv _ _ _ _ Hstep) as Hinv.
  destruct l as [| |tid sres| | | |p]; simpl in Hinv; try done.
  - left. by destruct Hinv as [-> _].
  - left. by destruct Hinv as (-> & _).
  - left. by destruct Hinv as [-> _].
  - left. by destruct Hinv as (-> & _).
  - left. by destruct Hinv as (t & _ & _ & -> & _).
  - destruct Hinv as (res & Hcb & _).
    assert (res = Ok AckHandled ∨ res ≠ Ok AckHandled) as [->|Hres]
      by (destruct res as [[]|]; (by left) || (by right)).
    + right. eauto.
    + left. by rewrite (cb_frame _ _ _ _ Hcb Hres).
Qed.

Lemma run_status_provenance (σ0 : sys) (tid : nat) (ls : list label) (σ : sys) :
  run callback (Arm tid :: ls) σ0 = Some σ →
  forallb (λ l, negb (is_arm l)) ls = true →
  ack_response_status (acks σ) = VStr "UNKNOWN"
  ∨ ∃ l1 l2 p σ1 σ2,
      ls = (l1 ++ Receive p :: l2)%list
      ∧ run callback (Arm tid :: l1) σ0 = Some σ1
      ∧ step callback (Receive p) σ1 = Some σ2
      ∧ waiting_truthy (waiting_for_ack_from (acks σ1)) = true
      ∧ callback p (acks σ1) = (Ok AckHandled, acks σ2)
      ∧ ack_response_status (acks σ2) = ack_response_status (acks σ).
Proof.
  revert σ. induction ls as [|l ls IH] using rev_ind; intros σ Hrun Hno.
  - left. rewrite run_cons in Hrun.
    destruct (step callback (Arm tid) σ0) as [σ1|] eqn:Harm; [|done].
    apply step_inv in Harm as (t & _ & _ & Hacks & _).
    simpl in Hrun. injection Hrun as <-. by rewrite Hacks.
  - rewrite app_comm_cons in Hrun.
    apply run_snoc in Hrun as (σ' & Hrun & Hstep).
    rewrite forallb_app in Hno. apply andb_prop in Hno as [Hno Hl].
    simpl in Hl. rewrite andb_true_r in Hl. apply negb_true_iff in Hl.
    destruct (step_status _ _ _ Hstep Hl) as [Hsame | (p & -> & Hcb)].
    + destruct (IH σ' Hrun Hno)
        as [Hunk | (l1 & l2 & p & σ1 & σ2 & -> & H1 & H2 & H3 & H4 & H5)].
      * left. congruence.
      * right. exists l1, (l2 ++ [l])%list, p, σ1, σ2.
        rewrite <- app_assoc. simpl. repeat split; try done. congruence.
    + right. exists ls, [], p, σ', σ.
      repeat split; try done.
      by apply cb_handled in Hcb as [? _].
Qed.

(** Without an arm and without a withheld acknowledgment the recorded
    status stays what it was. *)
Lemma run_keeps_status (ls : list label) (σ σ' : sys) :
  run callback ls σ = Some σ' →
  forallb (λ l, negb (is_arm l)) ls = true →
  handled_count (display σ') = handled_count (display σ) →
  ack_response_status (acks σ') = ack_response_status (acks σ).
Proof.
  revert σ. induction ls as [|l ls IH]; intros σ; simpl.
  - by intros [= ->].
  - destruct (step callback l σ) as [σ1|] eqn:Hstep; simpl; [|done].
    intros Hrun [Hl Hno]%andb_prop Hcount.
    apply negb_true_iff in Hl.
    pose proof (step_handled_mono _ _ _ _ Hstep) as Hm1.
    pose proof (run_handled_mono _ _ _ _ Hrun) as Hm2.
    rewrite (IH σ1 Hrun Hno) by lia.
    destruct (step_status _ _ _ Hstep Hl) as [Hsame | (p & -> & Hcb)]; [done|].
    apply step_inv in Hstep as (res & Hcb' & Hlog).
    rewrite Hcb in Hcb'. injection Hcb' as <-.
    rewrite Hlog, handled_count_snoc in Hm2. simpl in Hm2. lia.
Qed.

End Provenance.

(** C10: no stale result crosses operations. An arm sets the status to
    ['UNKNOWN'] and clears the event while the sender still stands before
    [sendText]; a callback changes nothing unless an expectation is armed;
    and so, in any interleaving, the value a sender's second critical
    section would read after the most recent arm is ['UNKNOWN'] or the
    reason that a callback of this run recorded after that arm, while an
    expectation was armed. *)
Theorem no_stale_result
    (callback : packet → prog receive_outcome) (σ0 σ : sys) (tid : nat)
    (ls : list label) :
  tool_callback callback →
  run callback (Arm tid :: ls) σ0 = Some σ →
  forallb (λ l, negb (is_arm l)) ls = true →
  (∃ σa t, step callback (Arm tid) σ0 = Some σa
           ∧ ack_response_status (acks σa) = VStr "UNKNOWN"
           ∧ ack_received_event (acks σa) = false
           ∧ threads σa !! tid = Some t ∧ at_pc t = AtSend)
  ∧ (∀ p s, waiting_truthy (waiting_for_ack_from s) = false →
            (callback p s).2 = s)
  ∧ ((disarm (acks σ)).1 = VStr "UNKNOWN"
     ∨ ∃ l1 l2 p σ1 σ2,
         ls = (l1 ++ Receive p :: l2)%list
         ∧ run callback (Arm tid :: l1) σ0 = Some σ1
         ∧ step callback (Receive p) σ1 = Some σ2
         ∧ waiting_truthy (waiting_for_ack_from (acks σ1)) = true
         ∧ callback p (acks σ1) = (Ok AckHandled, acks σ2)
         ∧ ack_response_status (acks σ2) = (disarm (acks σ)).1).
Proof.
  intros Hcb%tool_callback_correlator Hrun Hno.
  split; [|split].
  - rewrite run_cons in Hrun.
    destruct (step callback (Arm tid) σ0) as [σa|] eqn:Harm; [|done].
    apply step_inv in Harm as (t & Ht & _ & Hacks & Hts & _).
    exists σa, (set_pc AtSend t). rewrite Hacks, Hts.
    repeat split. apply list_lookup_insert_eq. by eapply lookup_lt_Some.
  - intros p s Hw.
    destruct (unarmed_frame p s Hw) as (res & Heq & _). by rewrite Heq.
  - by apply run_status_provenance.
Qed.

Lemma no_stale_result_witness :
  (disarm {| ack_received_event := true;
             ack_response_status := VStr "NONE";
             waiting_for_ack_from := Some "!bbbbbbbb" |}).1 = VStr "UNKNOWN"
  ∨ ∃ l1 l2 p σ1 σ2,
      [Send 0 (Ok ()); WaitEnter 0;
       Receive (ack_packet "!bbbbbbbb" "NONE"); WaitReturn 0 1]
      = (l1 ++ Receive p :: l2)%list
      ∧ run CLI.on_receive (Arm 0 :: l1)
          {| acks := {| ack_received_event := true;
                        ack_response_status := VStr "NO_RESPONSE";
                        waiting_for_ack_from := None |};
             threads := [mk_thread "bob" "!bbbbbbbb" AtArm];
             display := [] |} = Some σ1
      ∧ step CLI.on_receive (Receive p) σ1 = Some σ2
      ∧ waiting_truthy (waiting_for_ack_from (acks σ1)) = true
      ∧ CLI.on_receive p (acks σ1) = (Ok AckHandled, acks σ2)
      ∧ ack_response_status (acks σ2)
        = (disarm {| ack_received_event := true;
                     ack_response_status := VStr "NONE";
                     waiting_for_ack_from := Some "!bbbbbbbb" |}).1.
Proof.
  refine (proj2 (proj2 (no_stale_result CLI.on_receive
            {| acks := {| ack_received_event := true;
                          ack_response_status := VStr "NO_RESPONSE";
                          waiting_for_ack_from := None |};
               threads := [mk_thread "bob" "!bbbbbbbb" AtArm];
               display := [] |}
            {| acks := {| ack_received_event := true;
                          ack_response_status := VStr "NONE";
                          waiting_for_ack_from := Some "!bbbbbbbb" |};
               threads := [mk_thread "bob" "!bbbbbbbb" AtDisarm];
               display := [Shown AckHandled] |}
            0
            [Send 0 (Ok ()); WaitEnter 0;
             Receive (ack_packet "!bbbbbbbb" "NONE"); WaitReturn 0 1]
            _ _ _))).
  - left. reflexivity.
  - vm_compute. reflexivity.
  - reflexivity.
Defined.

(** ** The value read back after an acknowledgment *)

(** C4, amended: when a matching ROUTING event carrying reason [v] has
    been taken as the acknowledgment, and neither a further arm nor a
    further acknowledgment follows it, the sender's second critical section
    reads back exactly [v]; ['NONE'] is reported as delivered, ['UNKNOWN']
    as unconfirmed (timeout), and every other value as a failure that
    shows [v] unchanged. *)
Theorem disarm_returns_carried_reason
    (callback : packet → prog receive_outcome) (σ1 σ2 σ : sys) (p : packet)
    (X : node_id) (d r : gmap string pyval) (v : pyval) (ls : list label)
    (target : string) :
  tool_callback callback →
  X ≠ "" →
  waiting_for_ack_from (acks σ1) = Some X →
  from_node p X →
  routing_event p d →
  routing_payload d = Some r →
  r !! "errorReason" = Some v →
  step callback (Receive p) σ1 = Some σ2 →
  run callback ls σ2 = Some σ →
  forallb (λ l, negb (is_arm l)) ls = true →
  handled_count (display σ) = handled_count (display σ2) →
  display σ2 = (display σ1 ++ [Shown AckHandled])%list
  ∧ (disarm (acks σ)).1 = v
  ∧ (v = VStr "NONE" → classify target (disarm (acks σ)).1 = Delivered target)
  ∧ (v = VStr "UNKNOWN" → classify target (disarm (acks σ)).1 = NoAckTimeout)
  ∧ (v ≠ VStr "NONE" → v ≠ VStr "UNKNOWN" →
     classify target (disarm (acks σ)).1 = DeliveryFailed target v).
Proof.
  intros Htool HX Hw Hfrom Hrt Hpay Hv Hstep Hrun Hno Hcount.
  pose proof (tool_callback_correlator _ Htool) as Hcor.
  assert (callback p (acks σ1) = (Ok AckHandled, recorded v (acks σ1))) as Hcb.
  { rewrite <- (carried_reason_field _ _ Hv).
    destruct Htool as [-> | ->];
      [by eapply cli_matching_recorded | by eapply gui_matching_recorded]. }
  apply step_inv in Hstep as (res & Hcb' & Hlog).
  rewrite Hcb in Hcb'. injection Hcb' as <- Hacks.
  assert ((disarm (acks σ)).1 = v) as Hread.
  { simpl. rewrite (run_keeps_status callback ls σ2 σ Hrun Hno Hcount).
    by rewrite <- Hacks. }
  split; [done|]. split; [done|]. rewrite Hread.
  apply classify_cases.
Qed.

Lemma disarm_returns_carried_reason_witness :
  (disarm {| ack_received_event := true;
             ack_response_status := VStr "NO_RESPONSE";
             waiting_for_ack_from := Some "!cccccccc" |}).1 = VStr "NO_RESPONSE"
  ∧ classify "carol" (VStr "NO_RESPONSE")
    = DeliveryFailed "carol" (VStr "NO_RESPONSE").
Proof.
  destruct (disarm_returns_carried_reason CLI.on_receive
              {| acks := arm "!cccccccc" initial_state;
                 threads := [mk_thread "carol" "!cccccccc" (Waiting false)];
                 display := [] |}
              {| acks := {| ack_received_event := true;
                            ack_response_status := VStr "NO_RESPONSE";
                            waiting_for_ack_from := Some "!cccccccc" |};
                 threads := [mk_thread "carol" "!cccccccc" (Waiting true)];
                 display := [Shown AckHandled] |}
              {| acks := {| ack_received_event := true;
                            ack_response_status := VStr "NO_RESPONSE";
                            waiting_for_ack_from := Some "!cccccccc" |};
                 threads := [mk_thread "carol" "!cccccccc" AtDisarm];
                 display := [Shown AckHandled;
                             Shown (ToDisplay (text_packet "!dddddddd" "hi"))] |}
              (ack_packet "!cccccccc" "NO_RESPONSE") "!cccccccc"
              {[ "portnum" := VStr "ROUTING_APP";
                 "routing" := VDict {[ "errorReason" := VStr "NO_RESPONSE" ]} ]}
              {[ "errorReason" := VStr "NO_RESPONSE" ]}
              (VStr "NO_RESPONSE")
              [Receive (text_packet "!dddddddd" "hi"); WaitReturn 0 3]
              "carol")
    as (_ & Hread & _ & _ & Hfail).
  - left. reflexivity.
  - discriminate.
  - reflexivity.
  - reflexivity.
  - split; reflexivity.
  - reflexivity.
  - reflexivity.
  - vm_compute. reflexivity.
  - vm_compute. reflexivity.
  - reflexivity.
  - reflexivity.
  - split; [exact Hread|].
    change (VStr "NO_RESPONSE") with
      (disarm {| ack_received_event := true;
                 ack_response_status := VStr "NO_RESPONSE";
                 waiting_for_ack_from := Some "!cccccccc" |}).1 at 1.
    apply Hfail; discriminate.
Defined.

(** ** The three outcomes of one direct message *)

Example scenario_delivered :
  run GUI.on_packet_received
      [Spawn "!aaaaaaaa" "!aaaaaaaa"; Arm 0; Send 0 (Ok ()); WaitEnter 0;
       Receive (ack_packet "!aaaaaaaa" "NONE"); WaitReturn 0 2; Disarm 0]
      initial_sys
    ≫= (λ σ, Some (display σ))
  = Some [Shown AckHandled; Notice 0 (Delivered "!aaaaaaaa")].
Proof. vm_compute. reflexivity. Qed.

Example scenario_timeout :
  run CLI.on_receive
      [Spawn "bob" "!bbbbbbbb"; Arm 0; Send 0 (Ok ()); WaitEnter 0;
       Receive (text_packet "!bbbbbbbb" "hello"); WaitReturn 0 15; Disarm 0]
      initial_sys
    ≫= (λ σ, Some (display σ))
  = Some [Shown (ToDisplay (text_packet "!bbbbbbbb" "hello"));
          Notice 0 NoAckTimeout].
Proof. vm_compute. reflexivity. Qed.

Example scenario_failed :
  run CLI.on_receive
      [Spawn "carol" "!cccccccc"; Arm 0; Send 0 (Ok ()); WaitEnter 0;
       Receive (ack_packet "!cccccccc" "NO_RESPONSE"); WaitReturn 0 4; Disarm 0]
      initial_sys
    ≫= (λ σ, Some (display σ))
  = Some [Shown AckHandled;
          Notice 0 (DeliveryFailed "carol" (VStr "NO_RESPONSE"))].
Proof. vm_compute. reflexivity. Qed.

(** A sender that has not been woken cannot leave the wait early. *)
Example scenario_no_early_return :
  run CLI.on_receive
      [Spawn "bob" "!bbbbbbbb"; Arm 0; Send 0 (Ok ()); WaitEnter 0;
       WaitReturn 0 3] initial_sys
  = None.
Proof. vm_compute. reflexivity. Qed.

(** * The command loop *)

Set Warnings "-clear-no-such-hyp".

(** ** Splitting and joining *)

Lemma split_on_nonempty (sep : ascii) (s : string) : split_on sep s ≠ [].
Proof.
  destruct s as [|c rest]; simpl; [done|].
  destruct (Ascii.eqb c sep); [done|].
  by destruct (split_on sep rest).
Qed.

(** Joining what [split(' ')] produced gives the text back. *)
Lemma join_split_space (s : string) : join_space (split_space s) = s.
Proof.
  unfold join_space, split_space.
  induction s as [|c rest IH]; simpl; [done|].
  destruct (Ascii.eqb c " ") eqn:Hc.
  - apply Ascii.eqb_eq in Hc as ->.
    pose proof (split_on_nonempty " " rest) as Hne.
    destruct (split_on " " rest) as [|w ws]; [done|].
    simpl in *. by rewrite IH.
  - pose proof (split_on_nonempty " " rest) as Hne.
    destruct (split_on " " rest) as [|w ws]; [done|].
    simpl in *. destruct ws; simpl in *; by rewrite <- IH.
Qed.

(** A word without spaces, a space, and the rest: the word is the first
    part. *)
Lemma split_space_word (w rest : string) :
  no_space w = true →
  split_space (w ++ " " ++ rest) = w :: split_space rest.
Proof.
  unfold split_space. induction w as [|c w IH]; simpl; [done|].
  intros [Hc Hw]%andb_prop. apply negb_true_iff in Hc. rewrite Hc.
  by rewrite (IH Hw).
Qed.

Lemma startswith_app (prefix s : string) :
  startswith prefix s = true → ∃ rest, s = prefix ++ rest.
Proof.
  unfold startswith. revert s.
  induction prefix as [|c prefix IH]; intros s; simpl.
  - intros _. by exists s.
  - destruct s as [|c' s]; [done|]. simpl.
    destruct (ascii_dec c c') as [->|]; [|done].
    intros [rest ->]%IH. by exists rest.
Qed.

(** ** Commands that take [print_lock] twice *)

Section Loop.

Context (lower : string → string).
Context (py_int : string → option Z) (py_float : string → option Q).
Context (nodes_all_body info_body : iface → locked unit).

Local Abbreviation main_iteration' :=
  (main_iteration lower py_int py_float nodes_all_body info_body).
Local Abbreviation dispatch' :=
  (dispatch lower py_int py_float nodes_all_body info_body).

Lemma main_iteration_nonempty (now : Q) (interface : iface) (raw : string) :
  raw ≠ "" →
  main_iteration' now interface raw false = dispatch' now interface raw true.
Proof.
  intros Hraw. unfold main_iteration, with_print_lock.
  by apply String.eqb_neq in Hraw as ->.
Qed.

(** X1: the loop holds [print_lock] while it dispatches, and the node
    lists, [info], every [channel...] and every [config ...] command start
    by taking the same lock. A [threading.Lock] is not reentrant, so for
    each of these commands the main thread waits forever and nothing of
    the command is carried out. *)
Theorem handler_commands_block (now : Q) (interface : iface) (raw : string) :
  raw ≠ "" →
  lower raw = "nodes all" ∨ lower raw = "nodes online" ∨ lower raw = "info"
  ∨ startswith "channel" (lower raw) = true
  ∨ startswith "config " (lower raw) = true →
  main_iteration' now interface raw false = BlockedOnPrintLock [].
Proof.
  intros Hraw Hcmd. rewrite main_iteration_nonempty by done.
  unfold dispatch.
  destruct Hcmd as [-> | [-> | [-> | [Hp | Hp]]]]; try done.
  - rewrite Hp. apply startswith_app in Hp as [rest ->].
    by change ("channel" +:+ rest) with (String "c" ("hannel" +:+ rest)).
  - rewrite Hp. apply startswith_app in Hp as [rest ->].
    by change ("config " +:+ rest) with (String "c" (String "o" ("nfig " +:+ rest))).
Qed.

End Loop.

Lemma handler_commands_block_witness :
  main_iteration ascii_lower (λ _, None) (λ _, None) (λ _, mret ()) (λ _, mret ())
    0 {| iface_nodes := []; iface_channels := [] |} "Channel list" false
  = BlockedOnPrintLock [].
Proof.
  apply handler_commands_block.
  - discriminate.
  - right. right. right. left. reflexivity.
Defined.

Lemma never_blocks_bind {A B} (m : locked A) (k : A → locked B) :
  never_blocks m → (∀ a, never_blocks (k a)) → never_blocks (m ≫= k).
Proof.
  intros Hm Hk held log. unfold mbind, locked_bind.
  destruct (m held) as [a l| l | e l] eqn:Hrun; [| by apply Hm in Hrun | done].
  destruct (k a held) as [b l'| l' | e l'] eqn:Hrun'; [done | | done].
  by apply Hk in Hrun'.
Qed.

Lemma never_blocks_ret {A} (a : A) : never_blocks (mret a : locked A).
Proof. done. Qed.

Lemma never_blocks_emit (e : effect) : never_blocks (emit e).
Proof. done. Qed.

Lemma never_blocks_crash {A} (e : pyerror) : never_blocks (crash e : locked A).
Proof. done. Qed.

Lemma never_blocks_lift {A} (r : result A) : never_blocks (lift_result r).
Proof. by destruct r. Qed.

Lemma never_blocks_print_single_node node_id node_info :
  never_blocks (print_single_node node_id node_info).
Proof.
  unfold print_single_node. case_match; [apply never_blocks_ret|].
  repeat (apply never_blocks_bind; [|intros ?]);
    try apply never_blocks_lift; try apply never_blocks_emit.
  all: unfold safe_name, print_snr;
    repeat case_match; (apply never_blocks_ret || apply never_blocks_crash).
Qed.

Lemma never_blocks_print_nodes (l : list (Q * (string * gmap string pyval))) :
  never_blocks (print_nodes l).
Proof.
  induction l as [|[t [k v]] l IH]; simpl; [apply never_blocks_ret|].
  apply never_blocks_bind; [apply never_blocks_print_single_node | done].
Qed.

(** X2: the periodic refresh takes [print_lock] and then calls
    [print_online_nodes], which takes it again: the refresh thread stops
    at its first round without printing anything, whether or not nodes are
    known. Called without the lock, as at start-up, the listing never
    waits. *)
Theorem periodic_refresh_blocks (now : Q) (interface : iface) :
  periodic_round now interface false = BlockedOnPrintLock []
  ∧ ∀ held log, print_online_nodes now interface held = BlockedOnPrintLock log
                ↔ held = true ∧ log = [].
Proof.
  split; [done|]. intros [|] log.
  { split; [by intros [= <-] | by intros [_ ->]]. }
  split; [|by intros [? _]]. intros Hb. exfalso. revert Hb.
  unfold print_online_nodes, with_print_lock.
  destruct (iface_nodes interface) as [|n ns]; [done|].
  destruct (online_nodes _ _) as [e|[|x l]]; try done.
  apply never_blocks_print_nodes.
Qed.

(** ** Broadcasts and direct messages *)

Lemma bind_then_continue (m : locked unit) (held : bool) :
  (m ≫= λ _, mret Continue) held
  = match m held with
    | Finished _ log => Finished Continue log
    | BlockedOnPrintLock log => BlockedOnPrintLock log
    | Crashed e log => Crashed e log
    end.
Proof.
  unfold mbind, locked_bind, mret, locked_ret.
  destruct (m held); [|done..]. by rewrite app_nil_r.
Qed.

Section Messages.

Context (lower : string → string).
Context (py_int : string → option Z) (py_float : string → option Q).
Context (nodes_all_body info_body : iface → locked unit).

Local Abbreviation main_iteration' :=
  (main_iteration lower py_int py_float nodes_all_body info_body).

(** The [dm] branch, case by case. *)
Lemma handle_dm_cases (interface : iface) (parts : list string) (held : bool) :
  handle_dm lower interface parts held
  = match parts with
    | _ :: target :: (_ :: _) as message_parts =>
        match resolve lower target (iface_nodes interface) with
        | Ok (Resolved dest) =>
            Finished () (if String.eqb dest "" then []
                         else [StartSender target dest (join_space message_parts)])
        | Ok Ambiguous => Finished () [Say MultipleNodesFound]
        | Ok Unknown => Finished () [Say (NodeNotFound target)]
        | Raise e => Crashed (OfExn e) []
        end
    | _ => Finished () [Say InvalidDmFormat]
    end.
Proof.
  destruct parts as [|w [|target [|m ms]]]; try done.
  unfold handle_dm, mbind, locked_bind, lift_result.
  destruct (resolve lower target (iface_nodes interface)) as [[dest| |]|e];
    try done.
  by destruct (String.eqb dest "").
Qed.

Lemma handle_dm_never_sends_text (interface : iface) (parts : list string)
    (held : bool) (text : string) :
  CallSendText text ∉ log_of (handle_dm lower interface parts held).
Proof.
  rewrite handle_dm_cases.
  destruct parts as [|w [|target [|m ms]]]; simpl; try set_solver.
  destruct (resolve lower target (iface_nodes interface)) as [[dest| |]|e];
    simpl; try set_solver.
  destruct (String.eqb dest ""); set_solver.
Qed.

(** X3: a line is sent as a broadcast exactly when it is not empty and
    its lower-cased form is none of the command forms, and what is sent is
    the line as typed. In particular no text that begins with "channel",
    "dm " or "config " (in any case) can be broadcast. *)
Theorem broadcast_iff_not_a_command
    (now : Q) (interface : iface) (raw text : string) :
  CallSendText text ∈ log_of (main_iteration' now interface raw false)
  ↔ text = raw ∧ raw ≠ "" ∧ command_form (lower raw) = false.
Proof.
  unfold main_iteration, with_print_lock.
  destruct (String.eqb raw "") eqn:Hraw.
  { apply String.eqb_eq in Hraw. simpl. split; [set_solver | by intros (_ & ? & _)]. }
  apply String.eqb_neq in Hraw.
  unfold dispatch, command_form.
  destruct (String.eqb (lower raw) "exit"); simpl.
  { split; [set_solver | by intros (_ & _ & ?)]. }
  rewrite bind_then_continue.
  destruct (String.eqb (lower raw) "nodes all"); simpl.
  { split; [set_solver | by intros (_ & _ & ?)]. }
  destruct (String.eqb (lower raw) "nodes online"); simpl.
  { split; [set_solver | by intros (_ & _ & ?)]. }
  destruct (String.eqb (lower raw) "info"); simpl.
  { split; [set_solver | by intros (_ & _ & ?)]. }
  destruct (startswith "channel" (lower raw)); simpl.
  { split; [set_solver | by intros (_ & _ & ?)]. }
  destruct (startswith "dm " (lower raw)); simpl.
  { split; [| by intros (_ & _ & ?)].
    pose proof (handle_dm_never_sends_text interface (split_space raw) true text).
    destruct (handle_dm lower interface (split_space raw) true); simpl in *; done. }
  destruct (startswith "config " (lower raw)); simpl.
  { split; [set_solver | by intros (_ & _ & ?)]. }
  split.
  - intros [[=]|[[= ->]|[]%elem_of_nil]%elem_of_cons]%elem_of_cons. done.
  - intros (-> & _ & _). set_solver.
Qed.

End Messages.

Section Direct.

Context (lower : string → string).
Context (py_int : string → option Z) (py_float : string → option Q).
Context (nodes_all_body info_body : iface → locked unit).

Local Abbreviation main_iteration' :=
  (main_iteration lower py_int py_float nodes_all_body info_body).

(** One pass of the loop, case by case. *)
Lemma main_iteration_cases (now : Q) (interface : iface) (raw : string) :
  main_iteration' now interface raw false
  = if String.eqb raw "" then Finished Continue []
    else if String.eqb (lower raw) "exit" then Finished Break []
    else if String.eqb (lower raw) "nodes all"
            || String.eqb (lower raw) "nodes online"
            || String.eqb (lower raw) "info"
            || startswith "channel" (lower raw)
    then BlockedOnPrintLock []
    else if startswith "dm " (lower raw) then
      match handle_dm lower interface (split_space raw) true with
      | Finished _ log => Finished Continue log
      | BlockedOnPrintLock log => BlockedOnPrintLock log
      | Crashed e log => Crashed e log
      end
    else if startswith "config " (lower raw) then BlockedOnPrintLock []
    else Finished Continue [Say SendingBroadcast; CallSendText raw].
Proof.
  unfold main_iteration, with_print_lock.
  destruct (String.eqb raw ""); [done|].
  unfold dispatch.
  destruct (String.eqb (lower raw) "exit"); [done|].
  rewrite bind_then_continue.
  destruct (String.eqb (lower raw) "nodes all"); [done|].
  destruct (String.eqb (lower raw) "nodes online"); [done|].
  destruct (String.eqb (lower raw) "info"); [done|].
  destruct (startswith "channel" (lower raw)); [done|].
  destruct (startswith "dm " (lower raw)); [done|].
  by destruct (startswith "config " (lower raw)).
Qed.

(** What [found_nodes] holds: the keys of the entries whose name
    matches. *)
Lemma find_nodes_elem (target : string) (nodes : list (string * gmap string pyval))
    (found : list string) (d : string) :
  find_nodes lower target nodes = Ok found →
  d ∈ found ↔ ∃ info, (d, info) ∈ nodes ∧ name_matches lower target info = Ok true.
Proof.
  revert found. induction nodes as [|[k v] nodes IH]; intros found; simpl.
  - intros [= <-]. split; [set_solver|]. intros (info & []%elem_of_nil & _).
  - unfold mbind, result_bind.
    destruct (name_matches lower target v) as [hit|e] eqn:Hhit; [|done].
    destruct (find_nodes lower target nodes) as [found'|e] eqn:Hrest; [|done].
    intros [= <-]. specialize (IH found' eq_refl).
    destruct hit.
    + rewrite elem_of_cons, IH. split.
      * intros [->|(info & Hin & Hm)]; [exists v|exists info]; set_solver.
      * intros (info & [[= -> ->]|Hin]%elem_of_cons & Hm); [by left|].
        right. by exists info.
    + rewrite IH. split.
      * intros (info & Hin & Hm). exists info. set_solver.
      * intros (info & [[= -> ->]|Hin]%elem_of_cons & Hm); [congruence|].
        by exists info.
Qed.

(** X4: whenever the loop starts a sender thread, the destination is not
    empty, the target is the second word of the line, the message is the
    rest of the line joined back with single spaces, and the destination
    is either the target itself (a target that begins with "!" is taken as
    a node id without being looked up) or the key of the only node whose
    long or short name equals the target ignoring case. *)
Theorem sender_started_only_for_resolved_target
    (now : Q) (interface : iface) (raw target dest message : string) :
  StartSender target dest message ∈ log_of (main_iteration' now interface raw false) →
  dest ≠ ""
  ∧ split_space raw !! 1%nat = Some target
  ∧ message = join_space (drop 2 (split_space raw))
  ∧ ((startswith "!" target = true ∧ dest = target)
     ∨ (startswith "!" target = false
        ∧ (∃ info, (dest, info) ∈ iface_nodes interface
                   ∧ name_matches lower target info = Ok true)
        ∧ ∀ dest' info', (dest', info') ∈ iface_nodes interface →
                         name_matches lower target info' = Ok true →
                         dest' = dest)).
Proof.
  rewrite main_iteration_cases.
  destruct (String.eqb raw ""); [set_solver|].
  destruct (String.eqb (lower raw) "exit"); [set_solver|].
  destruct (_ || _); [set_solver|].
  destruct (startswith "dm " (lower raw)).
  2: { destruct (startswith "config " (lower raw)); set_solver. }
  rewrite handle_dm_cases.
  destruct (split_space raw) as [|w [|t [|m ms]]]; simpl; try set_solver.
  unfold resolve.
  destruct (startswith "!" t) eqn:Hbang; simpl.
  - destruct (String.eqb t "") eqn:Ht; simpl; [set_solver|].
    intros [= <- <- <-]%list_elem_of_singleton.
    apply String.eqb_neq in Ht. eauto 10.
  - unfold mbind, result_bind.
    destruct (find_nodes lower t (iface_nodes interface)) as [[|d [|d' ds]]|e]
      eqn:Hfound; simpl; try set_solver.
    destruct (String.eqb d "") eqn:Hd; simpl; [set_solver|].
    intros [= <- <- <-]%list_elem_of_singleton.
    apply String.eqb_neq in Hd.
    split; [done|]. split; [done|]. split; [done|]. right.
    split; [done|].
    pose proof (find_nodes_elem _ _ _ dest Hfound) as [Hd1 _].
    split; [apply Hd1; set_solver|].
    intros dest' info' Hin Hm.
    pose proof (find_nodes_elem _ _ _ dest' Hfound) as [_ Hd2].
    assert (dest' ∈ [dest]) as Hel by (apply Hd2; eauto).
    by apply list_elem_of_singleton in Hel.
Qed.

End Direct.

Lemma sender_started_only_for_resolved_target_witness :
  "!aaaaaaaa" ≠ ""
  ∧ split_space "DM !aaaaaaaa hello  world" !! 1%nat = Some "!aaaaaaaa"
  ∧ "hello  world" = join_space (drop 2 (split_space "DM !aaaaaaaa hello  world")).
Proof.
  destruct (sender_started_only_for_resolved_target
              ascii_lower (λ _, None) (λ _, None) (λ _, mret ()) (λ _, mret ())
              0 {| iface_nodes := []; iface_channels := [] |}
              "DM !aaaaaaaa hello  world" "!aaaaaaaa" "!aaaaaaaa" "hello  world")
    as (H1 & H2 & H3 & _).
  - vm_compute. apply list_elem_of_singleton. reflexivity.
  - split; [exact H1|]. split; [exact H2 | exact H3].
Defined.

Section Verbatim.

Context (lower : string → string).
Context (py_int : string → option Z) (py_float : string → option Q).
Context (nodes_all_body info_body : iface → locked unit).

Local Abbreviation main_iteration' :=
  (main_iteration lower py_int py_float nodes_all_body info_body).

(** X5: a line made of a command word, a target and a message, the first
    two without spaces, whose lower-cased form begins with "dm " starts
    one sender for the resolved destination, and the message it is given
    is the rest of the line character for character, inner and trailing
    spaces included. *)
Theorem direct_message_text_is_verbatim
    (now : Q) (interface : iface) (w target message dest : string) :
  no_space w = true →
  no_space target = true →
  startswith "dm " (lower (w ++ " " ++ target ++ " " ++ message)) = true →
  resolve lower target (iface_nodes interface) = Ok (Resolved dest) →
  dest ≠ "" →
  main_iteration' now interface (w ++ " " ++ target ++ " " ++ message) false
  = Finished Continue [StartSender target dest message].
Proof.
  intros Hw Ht Hdm Hres Hdest.
  rewrite main_iteration_cases, Hdm.
  assert (String.eqb (w ++ " " ++ target ++ " " ++ message) "" = false) as ->.
  { apply String.eqb_neq. by destruct w. }
  destruct (startswith_app _ _ Hdm) as [rest Hcmd]. rewrite Hcmd.
  change ("dm " +:+ rest) with (String "d" (String "m" (" " +:+ rest))).
  simpl String.eqb. simpl startswith. simpl orb. cbv iota.
  rewrite handle_dm_cases.
  rewrite (split_space_word w) by done.
  rewrite (split_space_word target) by done.
  pose proof (join_split_space message) as Hjoin.
  pose proof (split_on_nonempty " " message) as Hne.
  unfold split_space in *.
  destruct (split_on " " message) as [|m ms]; [done|].
  rewrite Hres, Hjoin.
  by apply String.eqb_neq in Hdest as ->.
Qed.

End Verbatim.

Lemma direct_message_text_is_verbatim_witness :
  main_iteration ascii_lower (λ _, None) (λ _, None) (λ _, mret ()) (λ _, mret ())
    0 {| iface_nodes := [("!bbbbbbbb",
                          {[ "user" := VDict {[ "longName" := VStr "Bob" ]} ]})];
         iface_channels := [] |}
    ("Dm" ++ " " ++ "BOB" ++ " " ++ " see  you ") false
  = Finished Continue [StartSender "BOB" "!bbbbbbbb" " see  you "].
Proof.
  apply direct_message_text_is_verbatim.
  - reflexivity.
  - reflexivity.
  - reflexivity.
  - vm_compute. reflexivity.
  - discriminate.
Defined.

(** ** Channel commands *)

Lemma list_channels_log (n : nat) (chs : list channel) (held : bool) (e : effect) :
  e ∈ log_of (list_channels n chs held) →
  ∃ i name primary, e = Say (ChannelLine i name primary).
Proof.
  revert n. induction chs as [|c chs IH]; intros n; simpl; [set_solver|].
  unfold mbind, locked_bind, say, emit. specialize (IH (S n)).
  destruct (list_channels (S n) chs held); simpl in *;
    intros [->|Hin]%elem_of_cons; eauto.
Qed.

Section Channels.

Context (lower : string → string) (py_int : string → option Z).

(** The name search returns the first channel whose name matches. *)
Lemma find_channel_first (target : string) (i0 : nat) (chs : list channel) (i : nat) :
  find_channel lower target i0 chs = Some i →
  ∃ k ch, i = (i0 + k)%nat ∧ chs !! k = Some ch
          ∧ lower (channel_name "" ch) = lower target
          ∧ ∀ j ch', (j < k)%nat → chs !! j = Some ch' →
                     lower (channel_name "" ch') ≠ lower target.
Proof.
  revert i0. induction chs as [|ch chs IH]; intros i0; simpl; [done|].
  destruct (String.eqb (lower (channel_name "" ch)) (lower target)) eqn:Heq.
  - intros [= <-]. apply String.eqb_eq in Heq.
    exists 0%nat, ch. repeat split; [lia | done | lia].
  - intros (k & ch' & -> & Hk & Hname & Hfirst)%IH.
    apply String.eqb_neq in Heq.
    exists (S k), ch'. repeat split; [lia | done | done |].
    intros [|j] ch'' Hj Hl; simpl in Hl; [by simplify_eq|].
    eapply Hfirst; [|done]. lia.
Qed.

(** X6: [channel set] asks the device for a new primary channel only
    with an index inside the channel list; the index is the number typed,
    or, when the target is not a number, the position of the first channel
    whose name equals the target ignoring case. *)
Theorem channel_set_index_in_range
    (interface : iface) (parts : list string) (i : Z) :
  CallSetPrimaryChannel i ∈ log_of (handle_channel_command lower py_int interface parts false) →
  (0 <= i < Z.of_nat (length (iface_channels interface)))%Z
  ∧ parts !! 1%nat = Some "set"
  ∧ ∃ target, parts !! 2%nat = Some target
      ∧ (py_int target = Some i
         ∨ (py_int target = None
            ∧ ∃ ch, iface_channels interface !! Z.to_nat i = Some ch
                    ∧ lower (channel_name "" ch) = lower target
                    ∧ ∀ j ch', (j < Z.to_nat i)%nat →
                               iface_channels interface !! j = Some ch' →
                               lower (channel_name "" ch') ≠ lower target)).
Proof.
  unfold handle_channel_command, with_print_lock.
  destruct parts as [|w [|sub rest]]; simpl; try set_solver.
  destruct (String.eqb sub "list") eqn:Hlist.
  { destruct (iface_channels interface) as [|ch chs]; [set_solver|].
    intros Hin.
    by apply (list_channels_log 0 (ch :: chs) true) in Hin as (? & ? & ? & ?). }
  destruct (String.eqb sub "set") eqn:Hset.
  2: { destruct (String.eqb sub "add"); [destruct rest; set_solver|].
       destruct (String.eqb sub "del"); [|set_solver].
       destruct rest as [|t ?]; [set_solver|].
       destruct (py_int t) as [z|]; [|set_solver].
       destruct (z =? 0)%Z; set_solver. }
  apply String.eqb_eq in Hset as ->.
  destruct rest as [|target rest]; [set_solver|].
  destruct (negb _) eqn:Hsentinel; [|set_solver].
  destruct (_ && _) eqn:Hrange; [|set_solver].
  intros [= ->]%list_elem_of_singleton.
  apply andb_prop in Hrange as [H0%Z.leb_le H1%Z.ltb_lt].
  split; [done|]. split; [done|]. exists target. split; [done|].
  unfold channel_target_index in *.
  destruct (py_int target) as [z|]; [by left|]. right. split; [done|].
  destruct (find_channel lower target 0 (iface_channels interface)) as [n|] eqn:Hf;
    [|done].
  apply find_channel_first in Hf as (k & ch & -> & Hk & Hname & Hfirst).
  rewrite Nat2Z.id. simpl. eauto.
Qed.

(** X7: [channel del] never asks the device to delete channel 0; the
    index it passes on is the number typed, whatever its sign or size. *)
Theorem channel_del_never_primary
    (interface : iface) (parts : list string) (i : Z) :
  CallDeleteChannel i ∈ log_of (handle_channel_command lower py_int interface parts false) →
  i ≠ 0%Z
  ∧ parts !! 1%nat = Some "del"
  ∧ ∃ index_text, parts !! 2%nat = Some index_text ∧ py_int index_text = Some i.
Proof.
  unfold handle_channel_command, with_print_lock.
  destruct parts as [|w [|sub rest]]; simpl; try set_solver.
  destruct (String.eqb sub "list") eqn:Hlist.
  { destruct (iface_channels interface) as [|ch chs]; [set_solver|].
    intros Hin.
    by apply (list_channels_log 0 (ch :: chs) true) in Hin as (? & ? & ? & ?). }
  destruct (String.eqb sub "set") eqn:Hset.
  { destruct rest as [|target rest]; [set_solver|].
    destruct (negb _); [|set_solver]. destruct (_ && _); set_solver. }
  destruct (String.eqb sub "add"); [destruct rest; set_solver|].
  destruct (String.eqb sub "del") eqn:Hdel; [|set_solver].
  apply String.eqb_eq in Hdel as ->.
  destruct rest as [|t rest]; [set_solver|].
  destruct (py_int t) as [z|] eqn:Hz; [|set_solver].
  destruct (z =? 0)%Z eqn:Hz0; [set_solver|].
  intros [= ->]%list_elem_of_singleton.
  apply Z.eqb_neq in Hz0. eauto.
Qed.

End Channels.

Lemma channel_set_index_in_range_witness :
  (0 <= 1 < Z.of_nat (length [mk_channel true (Some "Admin");
                              mk_channel false (Some "longfast")]))%Z
  ∧ ["channel"; "set"; "LongFast"] !! 1%nat = Some "set".
Proof.
  destruct (channel_set_index_in_range ascii_lower (λ _, None)
              {| iface_nodes := [];
                 iface_channels := [mk_channel true (Some "Admin");
                                    mk_channel false (Some "longfast")] |}
              ["channel"; "set"; "LongFast"] 1)
    as (H1 & H2 & _).
  - vm_compute. apply list_elem_of_singleton. reflexivity.
  - split; [exact H1 | exact H2].
Defined.

Lemma channel_del_never_primary_witness :
  (-1)%Z ≠ 0%Z ∧ ["channel"; "del"; "-1"] !! 1%nat = Some "del".
Proof.
  destruct (channel_del_never_primary ascii_lower
              (λ s, if String.eqb s "-1" then Some (-1)%Z else None)
              {| iface_nodes := []; iface_channels := [] |}
              ["channel"; "del"; "-1"] (-1))
    as (H1 & H2 & _).
  - vm_compute. apply list_elem_of_singleton. reflexivity.
  - split; [exact H1 | exact H2].
Defined.

(** ** The list of online nodes *)

Lemma online_nodes_elem (cutoff : Q) (nodes : list (string * gmap string pyval))
    (kept : list (Q * (string * gmap string pyval)))
    (t : Q) (k : string) (v : gmap string pyval) :
  online_nodes cutoff nodes = inr kept →
  (t, (k, v)) ∈ kept →
  (k, v) ∈ nodes ∧ last_heard v = inr t ∧ (cutoff < t)%Q.
Proof.
  revert kept. induction nodes as [|[k' v'] nodes IH]; intros kept; simpl.
  - intros [= <-]. by intros []%elem_of_nil.
  - destruct (last_heard v') as [e|t'] eqn:Ht; [done|].
    destruct (online_nodes cutoff nodes) as [e|kept'] eqn:Hrest; [done|].
    specialize (IH kept' eq_refl).
    destruct (Qlt_le_dec cutoff t') as [Hlt|Hle]; intros [= <-].
    + intros [[= -> -> ->]|Hin]%elem_of_cons.
      * split; [by left | done].
      * destruct (IH Hin) as (? & ? & ?). split; [by right | done].
    + intros Hin. destruct (IH Hin) as (? & ? & ?). split; [by right | done].
Qed.

Lemma insert_desc_perm {A} (x : Q * A) (l : list (Q * A)) :
  insert_desc x l ≡ₚ x :: l.
Proof.
  induction l as [|y l IH]; simpl; [done|].
  destruct (Qlt_le_dec x.1 y.1); [|done].
  rewrite IH. apply Permutation_swap.
Qed.

Lemma sorted_desc_perm {A} (l : list (Q * A)) : sorted_desc l ≡ₚ l.
Proof.
  induction l as [|x l IH]; simpl; [done|].
  unfold sorted_desc in *. simpl. by rewrite insert_desc_perm, IH.
Qed.

Lemma insert_desc_sorted {A} (x : Q * A) (l : list (Q * A)) :
  StronglySorted newest_first l → StronglySorted newest_first (insert_desc x l).
Proof.
  induction 1 as [|y l Hl IH Hy]; simpl.
  - repeat constructor.
  - destruct (Qlt_le_dec x.1 y.1) as [Hlt|Hle].
    + constructor; [done|].
      rewrite insert_desc_perm. constructor; [|done].
      unfold newest_first. by apply Qlt_le_weak.
    + constructor; [by constructor|].
      constructor; [done|].
      eapply Forall_impl; [exact Hy|]. unfold newest_first. simpl.
      intros z Hz. by eapply Qle_trans.
Qed.

Lemma sorted_desc_sorted {A} (l : list (Q * A)) :
  StronglySorted newest_first (sorted_desc l).
Proof.
  induction l as [|x l IH]; simpl; [constructor|].
  by apply insert_desc_sorted.
Qed.

Lemma safe_name_quiet (name : pyval) (held : bool) :
  safe_name name held = Finished () [] ∨ ∃ e, safe_name name held = Crashed e [].
Proof.
  unfold safe_name. destruct (truthy name); [|by left].
  destruct name; (by left) || (right; by eexists).
Qed.

Lemma print_snr_quiet (snr : pyval) (held : bool) :
  print_snr snr held = Finished () [] ∨ ∃ e, print_snr snr held = Crashed e [].
Proof.
  unfold print_snr. destruct (truthy snr); [|by left].
  destruct snr; (by left) || (right; by eexists).
Qed.

(** What [print_single_node] can leave in the log. *)
Lemma print_single_node_cases (k : string) (v : gmap string pyval) (held : bool) :
  let user := dict_get v "user" VNone in
  (truthy user = false ∧ print_single_node k v held = Finished () [])
  ∨ (truthy user = true
     ∧ (print_single_node k v held = Finished () [Say (NodeLine k)]
        ∨ ∃ e, print_single_node k v held = Crashed e []
               ∨ print_single_node k v held = Crashed e [Say (NodeLine k)])).
Proof.
  intros user. unfold print_single_node. fold user.
  destruct (truthy user) eqn:Hu; simpl; [right|by left]. split; [done|].
  unfold mbind, locked_bind, lift_result, say, emit.
  destruct (py_get user "longName" VNone) as [long|e]; [|right; eauto].
  destruct (py_get user "shortName" VNone) as [short|e]; [|right; eauto].
  destruct (safe_name_quiet long held) as [->|[e ->]]; [|right; eauto].
  destruct (safe_name_quiet short held) as [->|[e ->]]; [|right; eauto].
  destruct (print_snr_quiet (dict_get v "snr" VNone) held) as [->|[e ->]];
    [by left | right; eauto].
Qed.

Lemma print_nodes_log (l : list (Q * (string * gmap string pyval))) (held : bool)
    (n : string) :
  Say (NodeLine n) ∈ log_of (print_nodes l held) →
  ∃ t v, (t, (n, v)) ∈ l ∧ truthy (dict_get v "user" VNone) = true.
Proof.
  induction l as [|[t [k v]] l IH]; simpl; [set_solver|].
  unfold mbind, locked_bind.
  destruct (print_single_node_cases k v held)
    as [[Hu ->]|[Hu [->|[e [->| ->]]]]]; simpl.
  - destruct (print_nodes l held); simpl in *;
      intros (t' & v' & ? & ?)%IH; exists t', v'; set_solver.
  - destruct (print_nodes l held); simpl in *;
      (intros [[= ->]|(t' & v' & ? & ?)%IH]%elem_of_cons;
       [exists t, v | exists t', v']; set_solver).
  - set_solver.
  - intros [= ->]%list_elem_of_singleton. exists t, v. set_solver.
Qed.

Lemma print_nodes_finished (l : list (Q * (string * gmap string pyval)))
    (held : bool) (log : list effect) :
  print_nodes l held = Finished () log →
  listed_nodes log
  = (λ x, x.2.1) <$> filter (λ x, truthy (dict_get x.2.2 "user" VNone) = true) l.
Proof.
  revert log. induction l as [|[t [k v]] l IH]; intros log; simpl.
  - by intros [= <-].
  - unfold mbind, locked_bind. rewrite filter_cons. simpl.
    destruct (print_single_node_cases k v held)
      as [[Hu ->]|[Hu [->|[e [->| ->]]]]]; simpl; try done.
    + destruct (print_nodes l held) as [[] log'| |]; [|done..].
      intros [= <-]. rewrite decide_False by congruence. by apply IH.
    + destruct (print_nodes l held) as [[] log'| |]; [|done..].
      intros [= <-]. rewrite decide_True by done. simpl. f_equal. by apply IH.
Qed.

(** X8: the online list only ever names a node that is in the node table,
    has a non-empty [user] entry and was last heard less than 30 minutes
    before the moment of the listing. *)
Theorem online_list_only_recent_nodes (now : Q) (interface : iface) (n : string) :
  Say (NodeLine n) ∈ log_of (print_online_nodes now interface false) →
  ∃ v t, (n, v) ∈ iface_nodes interface
         ∧ last_heard v = inr t
         ∧ (now - 30 * 60 < t)%Q
         ∧ truthy (dict_get v "user" VNone) = true.
Proof.
  unfold print_online_nodes, with_print_lock.
  destruct (iface_nodes interface) as [|n0 ns] eqn:Hnodes; [set_solver|].
  destruct (online_nodes _ (n0 :: ns)) as [e|[|x l]] eqn:Honline; try set_solver.
  intros (t & v & Hin & Hu)%print_nodes_log.
  rewrite sorted_desc_perm in Hin.
  destruct (online_nodes_elem _ _ _ _ _ _ Honline Hin) as (? & ? & ?).
  by exists v, t.
Qed.

(** X9: when the online list is printed to the end, the nodes appear
    newest first: the names printed are those of the online entries that
    have a [user], taken in an order that is a rearrangement of the online
    entries with non-increasing [lastHeard]. *)
Theorem online_list_newest_first
    (now : Q) (interface : iface) (log : list effect)
    (online : list (Q * (string * gmap string pyval))) :
  online_nodes (now - ONLINE_THRESHOLD_SECONDS) (iface_nodes interface) = inr online →
  print_online_nodes now interface false = Finished () log →
  ∃ l, l ≡ₚ online
       ∧ StronglySorted newest_first l
       ∧ listed_nodes log
         = (λ x, x.2.1) <$> filter (λ x, truthy (dict_get x.2.2 "user" VNone) = true) l.
Proof.
  intros Honline.
  unfold print_online_nodes, with_print_lock.
  destruct (iface_nodes interface) as [|n0 ns].
  { simpl in Honline. injection Honline as <-. intros [= <-].
    exists []. split; [done|]. split; [constructor | done]. }
  rewrite Honline. destruct online as [|x l].
  { intros [= <-]. exists []. split; [done|]. split; [constructor | done]. }
  intros Hfin. exists (sorted_desc (x :: l)).
  split; [apply sorted_desc_perm|]. split; [apply sorted_desc_sorted|].
  by apply print_nodes_finished in Hfin.
Qed.

Lemma online_list_only_recent_nodes_witness :
  ∃ v t, ("!bbbbbbbb", v)
         ∈ [("!aaaaaaaa", {[ "lastHeard" := VInt 100;
                             "user" := VDict {[ "longName" := VStr "Al" ]} ]});
            ("!bbbbbbbb", {[ "lastHeard" := VInt 9000;
                             "user" := VDict {[ "longName" := VStr "Bob" ]} ]});
            ("!cccccccc", {[ "lastHeard" := VInt 9500;
                             "user" := VDict {[ "shortName" := VStr "C" ]} ]})]
         ∧ last_heard v = inr t
         ∧ (10000 - 30 * 60 < t)%Q
         ∧ truthy (dict_get v "user" VNone) = true.
Proof.
  apply (online_list_only_recent_nodes 10000
           {| iface_nodes :=
                [("!aaaaaaaa", {[ "lastHeard" := VInt 100;
                                  "user" := VDict {[ "longName" := VStr "Al" ]} ]});
                 ("!bbbbbbbb", {[ "lastHeard" := VInt 9000;
                                  "user" := VDict {[ "longName" := VStr "Bob" ]} ]});
                 ("!cccccccc", {[ "lastHeard" := VInt 9500;
                                  "user" := VDict {[ "shortName" := VStr "C" ]} ]})];
              iface_channels := [] |} "!bbbbbbbb").
  vm_compute. right. left.
Defined.

Lemma online_list_newest_first_witness :
  ∃ l, l ≡ₚ [(inject_Z 9000, ("!bbbbbbbb",
                {[ "lastHeard" := VInt 9000;
                   "user" := VDict {[ "longName" := VStr "Bob" ]} ]}));
             (inject_Z 9500, ("!cccccccc",
                {[ "lastHeard" := VInt 9500;
                   "user" := VDict {[ "shortName" := VStr "C" ]} ]}))]
       ∧ StronglySorted newest_first l
       ∧ listed_nodes [Say (NodeLine "!cccccccc"); Say (NodeLine "!bbbbbbbb")]
         = (λ x, x.2.1) <$> filter (λ x, truthy (dict_get x.2.2 "user" VNone) = true) l.
Proof.
  apply (online_list_newest_first 10000
           {| iface_nodes :=
                [("!aaaaaaaa", {[ "lastHeard" := VInt 100;
                                  "user" := VDict {[ "longName" := VStr "Al" ]} ]});
                 ("!bbbbbbbb", {[ "lastHeard" := VInt 9000;
                                  "user" := VDict {[ "longName" := VStr "Bob" ]} ]});
                 ("!cccccccc", {[ "lastHeard" := VInt 9500;
                                  "user" := VDict {[ "shortName" := VStr "C" ]} ]})];
              iface_channels := [] |}).
  - vm_compute. reflexivity.
  - vm_compute. reflexivity.
Defined.

(** * More on the correlator *)

(** ** When the expectation stays armed *)

Lemma count_outstanding_insert_same (ts : list thread) (tid : nat) (t t' : thread) :
  ts !! tid = Some t →
  outstanding t' = outstanding t →
  length (filter (λ t, outstanding t = true) (<[tid := t']> ts))
  = length (filter (λ t, outstanding t = true) ts).
Proof.
  intros Hts Ht.
  apply list_elem_of_split_length in Hts as (l1 & l2 & -> & ->).
  rewrite insert_app_r_alt, Nat.sub_diag by done. simpl.
  rewrite !filter_app, !filter_cons, !length_app, Ht.
  by destruct (decide (outstanding t = true)).
Qed.

Lemma count_outstanding_wake (ts : list thread) :
  length (filter (λ t, outstanding t = true) (wake <$> ts))
  = length (filter (λ t, outstanding t = true) ts).
Proof.
  induction ts as [|t ts IH]; [done|].
  rewrite fmap_cons, !filter_cons.
  assert (outstanding (wake t) = outstanding t) as ->
    by (unfold wake, outstanding; destruct (at_pc t) eqn:E; simpl; by rewrite ?E).
  destruct (decide (outstanding t = true)); simpl; by rewrite IH.
Qed.

Lemma failed_send_insert (ts : list thread) (tid : nat) (t t' t0 : thread) :
  ts !! tid = Some t →
  failed_send t = false →
  t0 ∈ ts → failed_send t0 = true →
  t0 ∈ <[tid := t']> ts.
Proof.
  intros Hts Ht [j Hj]%list_elem_of_lookup Ht0.
  apply list_elem_of_lookup. exists j.
  rewrite list_lookup_insert_ne; [done|].
  intros ->. congruence.
Qed.

Lemma failed_send_wake (ts : list thread) (t0 : thread) :
  t0 ∈ ts → failed_send t0 = true → t0 ∈ wake <$> ts.
Proof.
  intros Hin Ht0. apply list_elem_of_fmap. exists t0. split; [|done].
  unfold wake, failed_send in *. by destruct (at_pc t0).
Qed.


Section ArmedCause.

Context (callback : packet → prog receive_outcome) `{!Correlator callback}.

Lemma callback_keeps_waiting (p : packet) (s s' : ack_state) (res : result receive_outcome) :
  callback p s = (res, s') → waiting_for_ack_from s' = waiting_for_ack_from s.
Proof.
  intros Hcb.
  assert (res = Ok AckHandled ∨ res ≠ Ok AckHandled) as [->|Hres]
    by (destruct res as [[]|]; (by left) || (by right)).
  - by apply cb_handled in Hcb as (_ & _ & ?).
  - by rewrite (cb_frame _ _ _ _ Hcb Hres).
Qed.

(** A thread that moves between two points inside its cycle. *)
Lemma armed_cause_move (σ : sys) (tid : nat) (t : thread) (p : pc) (log : list shown) :
  threads σ !! tid = Some t →
  outstanding t = true →
  outstanding (set_pc p t) = true →
  armed_cause σ →
  armed_cause {| acks := acks σ;
                 threads := <[tid := set_pc p t]> (threads σ);
                 display := log |}.
Proof.
  intros Ht Hout Hout' [Hw | [Hc | (t0 & Hin & Hf)]].
  - by left.
  - right; left. unfold count_outstanding in *. simpl.
    by rewrite (count_outstanding_insert_same _ _ t) by congruence.
  - right; right. exists t0. split; [|done]. simpl.
    eapply failed_send_insert; [done| |done..].
    unfold failed_send, outstanding in *. by destruct (at_pc t) as [| | | | |[]].
Qed.

Lemma step_keeps_armed_cause (l : label) (σ σ' : sys) :
  step callback l σ = Some σ' → armed_cause σ → armed_cause σ'.
Proof.
  intros Hstep Hinv.
  destruct l as [target dest|tid|tid res|tid|tid elapsed|tid|p]; simpl in Hstep.
  - destruct (negb _); simplify_eq.
    destruct Hinv as [Hw | [Hc | (t0 & Hin & Hf)]]; [by left | |].
    + right; left. unfold count_outstanding in *. simpl.
      rewrite filter_app, length_app. lia.
    + right; right. exists t0. split; [|done]. simpl. set_solver.
  - destruct (threads σ !! tid) as [t|] eqn:Ht; simplify_eq/=.
    destruct (at_pc t) eqn:Hpc; simplify_eq.
    right; left. unfold count_outstanding. simpl.
    rewrite (count_outstanding_insert _ _ t); [lia | done | | done].
    unfold outstanding. by rewrite Hpc.
  - destruct (threads σ !! tid) as [t|] eqn:Ht; simplify_eq/=.
    destruct (at_pc t) eqn:Hpc, res as [[]|e]; simplify_eq.
    + apply armed_cause_move; [done| |done..].
      unfold outstanding. by rewrite Hpc.
    + right; right. exists (set_pc (Done (SendFailed e)) t). split; [|done].
      simpl. apply list_elem_of_lookup. exists tid.
      apply list_lookup_insert_eq. by eapply lookup_lt_Some.
  - destruct (threads σ !! tid) as [t|] eqn:Ht; simplify_eq/=.
    destruct (at_pc t) eqn:Hpc; simplify_eq.
    apply armed_cause_move; [done| |done..].
    unfold outstanding. by rewrite Hpc.
  - destruct (threads σ !! tid) as [t|] eqn:Ht; simplify_eq/=.
    destruct (at_pc t) eqn:Hpc; simplify_eq.
    destruct (_ && _); simplify_eq.
    apply armed_cause_move; [done| |done..].
    unfold outstanding. by rewrite Hpc.
  - destruct (threads σ !! tid) as [t|] eqn:Ht; simplify_eq/=.
    destruct (at_pc t) eqn:Hpc; simplify_eq. by left.
  - destruct (callback p (acks σ)) as [res s'] eqn:Hcb.
    pose proof (callback_keeps_waiting _ _ _ _ Hcb) as Hw'.
    assert (armed_cause {| acks := s'; threads := threads σ; display := [] |}
            ∧ armed_cause {| acks := s'; threads := wake <$> threads σ;
                             display := [] |}) as [H1 H2].
    { destruct Hinv as [Hw | [Hc | (t0 & Hin & Hf)]].
      - split; left; simpl; congruence.
      - split; right; left; unfold count_outstanding in *; simpl; [done|].
        by rewrite count_outstanding_wake.
      - split; right; right; exists t0; (split; [|done]); simpl; [done|].
        by apply failed_send_wake. }
    destruct res as [o|e]; simplify_eq; [destruct (ack_received_event s')|];
      done.
Qed.

Lemma run_keeps_armed_cause (ls : list label) (σ σ' : sys) :
  run callback ls σ = Some σ' → armed_cause σ → armed_cause σ'.
Proof.
  revert σ. induction ls as [|l ls IH]; intros σ; simpl.
  - by intros [= ->].
  - destruct (step callback l σ) as [σ1|] eqn:Hstep; simpl; [|done].
    intros Hrun Hinv. eapply IH; [done|]. by eapply step_keeps_armed_cause.
Qed.

End ArmedCause.

Lemma step_no_failed_send callback (l : label) (σ σ' : sys) :
  step callback l σ = Some σ' →
  is_send_error l = false →
  Forall (λ t, failed_send t = false) (threads σ) →
  Forall (λ t, failed_send t = false) (threads σ').
Proof.
  intros Hstep Hl Hall.
  destruct l as [target dest|tid|tid res|tid|tid elapsed|tid|p]; simpl in Hstep.
  - destruct (negb _); simplify_eq. simpl.
    apply Forall_app. split; [done|]. by repeat constructor.
  - destruct (threads σ !! tid) as [t|] eqn:Ht; simplify_eq/=.
    destruct (at_pc t) eqn:Hpc; simplify_eq. by apply Forall_insert.
  - destruct (threads σ !! tid) as [t|] eqn:Ht; simplify_eq/=.
    destruct (at_pc t) eqn:Hpc, res as [[]|e]; simplify_eq.
    by apply Forall_insert.
  - destruct (threads σ !! tid) as [t|] eqn:Ht; simplify_eq/=.
    destruct (at_pc t) eqn:Hpc; simplify_eq. by apply Forall_insert.
  - destruct (threads σ !! tid) as [t|] eqn:Ht; simplify_eq/=.
    destruct (at_pc t) eqn:Hpc; simplify_eq.
    destruct (_ && _); simplify_eq. by apply Forall_insert.
  - destruct (threads σ !! tid) as [t|] eqn:Ht; simplify_eq/=.
    destruct (at_pc t) eqn:Hpc; simplify_eq. apply Forall_insert; [done|].
    unfold failed_send, classify. simpl. by repeat case_match.
  - destruct (callback p (acks σ)) as [[o|e] s']; simplify_eq; simpl; [|done].
    destruct (ack_received_event s'); [|done].
    apply Forall_fmap. eapply Forall_impl; [done|].
    intros t Ht. simpl. unfold wake. by destruct (at_pc t) eqn:E.
Qed.

Lemma run_no_failed_send callback (ls : list label) (σ σ' : sys) :
  run callback ls σ = Some σ' →
  forallb (λ l, negb (is_send_error l)) ls = true →
  Forall (λ t, failed_send t = false) (threads σ) →
  Forall (λ t, failed_send t = false) (threads σ').
Proof.
  revert σ. induction ls as [|l ls IH]; intros σ; simpl.
  - by intros [= ->].
  - destruct (step callback l σ) as [σ1|] eqn:Hstep; simpl; [|done].
    intros Hrun [Hl Hls]%andb_prop Hall. apply negb_true_iff in Hl.
    eapply IH; [done..|]. by eapply step_no_failed_send.
Qed.

(** X10: in any run of either tool from its start, the correlator is
    armed only while some sender is between its two critical sections, or
    after some [sendText] raised. So once every sender has finished and no
    send has raised, nothing is armed and no packet can be withheld. *)
Theorem armed_only_with_cause
    (callback : packet → prog receive_outcome) (ls : list label) (σ : sys)
    (X : node_id) :
  tool_callback callback →
  run callback ls initial_sys = Some σ →
  waiting_for_ack_from (acks σ) = Some X →
  ((0 < count_outstanding σ)%nat ∨ ∃ t, t ∈ threads σ ∧ failed_send t = true)
  ∧ (count_outstanding σ = 0%nat → ∃ l, l ∈ ls ∧ is_send_error l = true).
Proof.
  intros Hcb%tool_callback_correlator Hrun Hw.
  assert ((0 < count_outstanding σ)%nat
          ∨ ∃ t, t ∈ threads σ ∧ failed_send t = true) as Hcause.
  { destruct (run_keeps_armed_cause callback ls initial_sys σ Hrun) as [?|?];
      [by left | congruence | done]. }
  split; [done|]. intros Hzero.
  destruct Hcause as [?|(t & Hin & Hf)]; [lia|].
  destruct (forallb (λ l, negb (is_send_error l)) ls) eqn:Hall.
  - pose proof (run_no_failed_send callback ls initial_sys σ Hrun Hall
                  (Forall_nil_2 _)) as Hno.
    rewrite Forall_forall in Hno. specialize (Hno t Hin). congruence.
  - apply not_true_iff_false in Hall. rewrite forallb_forall in Hall.
    destruct (existsb is_send_error ls) eqn:Hex.
    + apply existsb_exists in Hex as (l & Hl & ?). exists l.
      split; [by apply list_elem_of_In | done].
    + exfalso. apply Hall. intros l Hl. apply negb_true_iff.
      destruct (is_send_error l) eqn:Hs; [|done].
      assert (existsb is_send_error ls = true); [|congruence].
      apply existsb_exists. eauto.
Qed.

Lemma armed_only_with_cause_witness :
  (0 < count_outstanding
         {| acks := arm "!aaaaaaaa" initial_state;
            threads := [mk_thread "bob" "!aaaaaaaa" AtWait];
            display := [] |})%nat
  ∨ ∃ t, t ∈ [mk_thread "bob" "!aaaaaaaa" AtWait] ∧ failed_send t = true.
Proof.
  apply (armed_only_with_cause CLI.on_receive
           [Spawn "bob" "!aaaaaaaa"; Arm 0; Send 0 (Ok ())]
           {| acks := arm "!aaaaaaaa" initial_state;
              threads := [mk_thread "bob" "!aaaaaaaa" AtWait];
              display := [] |} "!aaaaaaaa").
  - left. reflexivity.
  - vm_compute. reflexivity.
  - reflexivity.
Defined.

(** ** Exceptions of the GUI callback *)

(** X11: the GUI callback has no handler of its own, yet it can raise
    into the feed only an [AttributeError], only while an expectation is
    armed for the sender of the packet, only for a packet whose [decoded]
    or [routing] entry is not a dict, and then it has changed nothing. On
    every packet of the shape the library produces it returns normally. *)
Theorem gui_callback_raises_only_on_malformed (p : packet) (s : ack_state) :
  (∀ e s', GUI.on_packet_received p s = (Raise e, s') →
           e = AttributeError ∧ s' = s
           ∧ waiting_truthy (waiting_for_ack_from s) = true
           ∧ eq_waiting (dict_get p "fromId" VNone) (waiting_for_ack_from s) = true
           ∧ ¬ well_formed_packet p)
  ∧ (well_formed_packet p →
     ∃ o s', GUI.on_packet_received p s = (Ok o, s')).
Proof.
  assert ((∃ o s', GUI.on_packet_received p s = (Ok o, s'))
          ∨ (GUI.on_packet_received p s = (Raise AttributeError, s)
             ∧ waiting_truthy (waiting_for_ack_from s) = true
             ∧ eq_waiting (dict_get p "fromId" VNone) (waiting_for_ack_from s) = true
             ∧ ¬ well_formed_packet p)) as Hcases.
  { destruct (GUI.on_packet_received p s) as [res s1] eqn:Hcb.
    rewrite gui_on_packet_received_unfold in Hcb.
    destruct (waiting_truthy (waiting_for_ack_from s)) eqn:Hw; simpl in Hcb;
      [|left; simplify_eq; eauto].
    destruct (eq_waiting _ _) eqn:Hfrom; simpl in Hcb;
      [|left; simplify_eq; eauto].
    unfold dict_get at 1 in Hcb.
    destruct (p !! "decoded") as [dec|] eqn:Hdec.
    2: { unfold dict_get in Hcb. rewrite lookup_empty in Hcb. simpl in Hcb.
         left; simplify_eq; eauto. }
    assert (∀ d, dec = VDict d →
              (∀ rd, dict_get d "routing" (VDict ∅) ≠ VDict rd) →
              ¬ well_formed_packet p) as Hbad.
    { intros d -> Hr Hwf. destruct (Hwf _ Hdec) as (d' & [= <-] & Hrt).
      unfold dict_get in Hr. destruct (d !! "routing") as [r|] eqn:Hlook.
      - destruct (Hrt r eq_refl) as [rd ->]. by eapply Hr.
      - by eapply Hr. }
    destruct dec as [|b|z|q|t|l|d];
      try (right; simplify_eq; repeat split; try done;
           intros Hwf; by destruct (Hwf _ Hdec) as (d & [=] & _)).
    destruct (eq_str (dict_get d "portnum" VNone) "ROUTING_APP");
      [|left; simplify_eq; eauto].
    destruct (dict_get d "routing" (VDict ∅)) as [|b|z|q|t|l|rd] eqn:Hr;
      try (right; simplify_eq; repeat split; try done;
           apply (Hbad d eq_refl); intros rd; congruence).
    left; simplify_eq; eauto. }
  split.
  - intros e s' Hcb.
    destruct Hcases as [(o & s1 & Heq)|(Heq & ? & ? & ?)]; [congruence|].
    rewrite Heq in Hcb. by injection Hcb as <- <-.
  - intros Hwf. by destruct Hcases as [?|(_ & _ & _ & ?)].
Qed.

Lemma gui_callback_raises_only_on_malformed_witness :
  AttributeError = AttributeError
  ∧ arm "!aaaaaaaa" initial_state = arm "!aaaaaaaa" initial_state
  ∧ waiting_truthy (waiting_for_ack_from (arm "!aaaaaaaa" initial_state)) = true
  ∧ eq_waiting (dict_get {[ "fromId" := VStr "!aaaaaaaa"; "decoded" := VNone ]}
                  "fromId" VNone)
      (waiting_for_ack_from (arm "!aaaaaaaa" initial_state)) = true
  ∧ ¬ well_formed_packet {[ "fromId" := VStr "!aaaaaaaa"; "decoded" := VNone ]}.
Proof.
  apply (proj1 (gui_callback_raises_only_on_malformed
                  {[ "fromId" := VStr "!aaaaaaaa"; "decoded" := VNone ]}
                  (arm "!aaaaaaaa" initial_state))).
  vm_compute. reflexivity.
Defined.

(** * The message window *)

Section Window.

Import GUIWindow.

Context (nodes : option (gmap string (gmap string pyval))).

(** X12: a POSITION packet that is not filtered out is shown only when
    both coordinates can be formatted. When [latitude] is missing, or
    [latitude] formats and [longitude] is missing, the default "N/A"
    meets the [.5f] format and [update_message_window] raises
    [ValueError]; an int [latitude] too large for a float raises
    [OverflowError]; in each case nothing is appended to the window. *)
Theorem position_without_coordinates_raises
    (filter_vars : gmap string bool) (p : packet) (d pos : gmap string pyval)
    (sender : sender_shown) :
  p !! "decoded" = Some (VDict d) →
  d !! "portnum" = Some (VStr "POSITION_APP") →
  filter_vars !! "POSITION_APP" ≠ Some false →
  from_str nodes (dict_get p "fromId" (VStr "N/A")) = inr sender →
  dict_get d "position" (VDict ∅) = VDict pos →
  (pos !! "latitude" = None
   → update_message_window filter_vars nodes p = inl ValueError)
  ∧ (∀ lat, pos !! "latitude" = Some lat → format_5f lat = inr () →
            pos !! "longitude" = None →
            update_message_window filter_vars nodes p = inl ValueError)
  ∧ (∀ lat lon, pos !! "latitude" = Some lat → pos !! "longitude" = Some lon →
                format_5f lat = inr () → format_5f lon = inr () →
                update_message_window filter_vars nodes p
                = inr (Some (mk_log_entry sender (Position lat lon))))
  ∧ (∀ z, pos !! "latitude" = Some (VInt z) →
          (INT_TOO_LARGE_FOR_FLOAT ≤ Z.abs z)%Z →
          update_message_window filter_vars nodes p = inl OverflowError).
Proof.
  intros Hdec Hport Hfilter Hfrom Hpos.
  assert (∀ r, (∀ lat lon, dict_get pos "latitude" (VStr "N/A") = lat →
                           dict_get pos "longitude" (VStr "N/A") = lon →
                           match format_5f lat with
                           | inl e => inl e
                           | inr _ => match format_5f lon with
                                      | inl e => inl e
                                      | inr _ => inr (Some (mk_log_entry sender
                                                              (Position lat lon)))
                                      end
                           end = r) →
               update_message_window filter_vars nodes p = r) as Hrun.
  { intros r Hr. unfold update_message_window.
    assert (dict_get p "decoded" (VDict ∅) = VDict d) as ->
      by (unfold dict_get; by rewrite Hdec).
    assert (get_or (VDict d) "portnum" (VStr "UNKNOWN") = inr (VStr "POSITION_APP"))
      as -> by (unfold get_or, py_get, dict_get; by rewrite Hport).
    assert (get_or (VDict d) "position" (VDict ∅) = inr (VDict pos)) as Hpos'
      by (unfold get_or, py_get; by rewrite Hpos).
    rewrite Hfrom. unfold entry_for. rewrite Hpos'.
    unfold get_or. simpl. rewrite <- (Hr _ _ eq_refl eq_refl).
    destruct (filter_vars !! "POSITION_APP") as [[|]|]; try done.
    all: by repeat (destruct (format_5f _)). }
  split; [|split; [|split]].
  - intros Hlat. apply Hrun. intros lat lon <- _.
    unfold dict_get. by rewrite Hlat.
  - intros lat Hlat Hfmt Hlon. apply Hrun. intros ? ? <- <-.
    unfold dict_get. by rewrite Hlat, Hlon, Hfmt.
  - intros lat lon Hlat Hlon Hf1 Hf2. apply Hrun. intros ? ? <- <-.
    unfold dict_get. by rewrite Hlat, Hlon, Hf1, Hf2.
  - intros z Hlat Hz. apply Hrun. intros lat lon <- _.
    unfold dict_get. rewrite Hlat. unfold format_5f.
    by rewrite (proj2 (Z.ltb_ge _ _) Hz).
Qed.

End Window.

Section Filters.

Import GUIWindow.

Context (nodes : option (gmap string (gmap string pyval))).

(** X13: the filter has no key for text messages and the check boxes
    never add one, so a TEXT_MESSAGE packet is shown whatever the boxes
    say, with the text it carries or "Empty message"; and with the filter
    as first created a ROUTING packet is never shown. *)
Theorem text_always_shown_routing_hidden
    (filter_vars : gmap string bool) (p : packet) (d : gmap string pyval) :
  p !! "decoded" = Some (VDict d) →
  (d !! "portnum" = Some (VStr "TEXT_MESSAGE_APP") →
   dom filter_vars = dom initial_filter_vars →
   ∀ sender, from_str nodes (dict_get p "fromId" (VStr "N/A")) = inr sender →
     update_message_window filter_vars nodes p
     = inr (Some (mk_log_entry sender
                    (MessageText (dict_get d "text" (VStr "Empty message"))))))
  ∧ (d !! "portnum" = Some (VStr "ROUTING_APP") →
     update_message_window initial_filter_vars nodes p = inr None).
Proof.
  intros Hdec.
  assert (dict_get p "decoded" (VDict ∅) = VDict d) as Hd
    by (unfold dict_get; by rewrite Hdec).
  split.
  - intros Hport Hdom sender Hfrom. unfold update_message_window. rewrite Hd.
    assert (get_or (VDict d) "portnum" (VStr "UNKNOWN") = inr (VStr "TEXT_MESSAGE_APP"))
      as -> by (unfold get_or, py_get, dict_get; by rewrite Hport).
    assert (filter_vars !! "TEXT_MESSAGE_APP" = None) as Hnone.
    { apply not_elem_of_dom. rewrite Hdom. by vm_compute. }
    simpl. by rewrite Hnone, Hfrom.
  - intros Hport. unfold update_message_window. rewrite Hd.
    assert (get_or (VDict d) "portnum" (VStr "UNKNOWN") = inr (VStr "ROUTING_APP"))
      as -> by (unfold get_or, py_get, dict_get; by rewrite Hport).
    done.
Qed.

(** X14: one pass of [process_queue] handles the queued packets in
    arrival order. Without an exception the queue ends empty and the
    entries are those of the packets, in order. An exception removes the
    packet that raised it without showing it and leaves every later packet
    in the queue; the entries of the earlier packets have been shown. *)
Theorem process_queue_in_order
    (filter_vars : gmap string bool) (queue : list packet)
    (entries : list log_entry) (remaining : list packet) (err : option pyerror) :
  process_queue filter_vars nodes queue = (entries, remaining, err) →
  match err with
  | None =>
      remaining = []
      ∧ entries = omap (shown_entry filter_vars nodes) queue
      ∧ Forall (λ p, ∃ r, update_message_window filter_vars nodes p = inr r) queue
  | Some e =>
      ∃ handled bad,
        queue = (handled ++ bad :: remaining)%list
        ∧ update_message_window filter_vars nodes bad = inl e
        ∧ entries = omap (shown_entry filter_vars nodes) handled
        ∧ Forall (λ p, ∃ r, update_message_window filter_vars nodes p = inr r) handled
  end.
Proof.
  revert entries remaining err.
  induction queue as [|p queue IH]; intros entries remaining err; simpl.
  - intros [= <- <- <-]. by repeat split.
  - destruct (update_message_window filter_vars nodes p) as [e|shown] eqn:Hup.
    + intros [= <- <- <-]. exists [], p. by repeat split.
    + destruct (process_queue filter_vars nodes queue) as [[es rest] err'].
      intros [= <- <- <-]. specialize (IH es rest err' eq_refl).
      assert (∀ l, omap (shown_entry filter_vars nodes) (p :: l)
                   = match shown with
                     | Some entry => entry :: omap (shown_entry filter_vars nodes) l
                     | None => omap (shown_entry filter_vars nodes) l
                     end) as Hcons.
      { intros l. simpl. unfold shown_entry at 1. rewrite Hup. by destruct shown. }
      destruct err' as [e|].
      * destruct IH as (handled & bad & -> & Hbad & -> & Hall).
        exists (p :: handled), bad. split; [done|]. split; [done|].
        split; [symmetry; apply Hcons | constructor; eauto].
      * destruct IH as (-> & -> & Hall). split; [done|].
        split; [symmetry; apply Hcons|]. constructor; eauto.
Qed.

End Filters.

Lemma position_without_coordinates_raises_witness :
  GUIWindow.update_message_window GUIWindow.initial_filter_vars None
    {[ "fromId" := VStr "!aaaaaaaa";
       "decoded" := VDict {[ "portnum" := VStr "POSITION_APP";
                             "position" := VDict {[ "latitude" := VFloat 1 ]} ]} ]}
  = inl ValueError.
Proof.
  refine (proj1 (proj2 (position_without_coordinates_raises None
                  GUIWindow.initial_filter_vars
                  {[ "fromId" := VStr "!aaaaaaaa";
                     "decoded" := VDict {[ "portnum" := VStr "POSITION_APP";
                                           "position" := VDict {[ "latitude" := VFloat 1 ]} ]} ]}
                  {[ "portnum" := VStr "POSITION_APP";
                     "position" := VDict {[ "latitude" := VFloat 1 ]} ]}
                  {[ "latitude" := VFloat 1 ]}
                  (GUIWindow.Bare (VStr "!aaaaaaaa")) _ _ _ _ _)) (VFloat 1) _ _ _).
  - vm_compute. reflexivity.
  - vm_compute. reflexivity.
  - vm_compute. discriminate.
  - vm_compute. reflexivity.
  - vm_compute. reflexivity.
  - vm_compute. reflexivity.
  - reflexivity.
  - vm_compute. reflexivity.
Defined.

Lemma text_always_shown_routing_hidden_witness :
  GUIWindow.update_message_window
    {[ "ADMIN_APP" := false; "POSITION_APP" := false; "TELEMETRY_APP" := false;
       "NODEINFO_APP" := false; "ROUTING_APP" := false ]} None
    {[ "fromId" := VStr "!aaaaaaaa";
       "decoded" := VDict {[ "portnum" := VStr "TEXT_MESSAGE_APP";
                             "text" := VStr "hello" ]} ]}
  = inr (Some (GUIWindow.mk_log_entry (GUIWindow.Bare (VStr "!aaaaaaaa"))
                 (GUIWindow.MessageText (VStr "hello")))).
Proof.
  refine (proj1 (text_always_shown_routing_hidden None
                  {[ "ADMIN_APP" := false; "POSITION_APP" := false;
                     "TELEMETRY_APP" := false; "NODEINFO_APP" := false;
                     "ROUTING_APP" := false ]}
                  {[ "fromId" := VStr "!aaaaaaaa";
                     "decoded" := VDict {[ "portnum" := VStr "TEXT_MESSAGE_APP";
                                           "text" := VStr "hello" ]} ]}
                  {[ "portnum" := VStr "TEXT_MESSAGE_APP"; "text" := VStr "hello" ]}
                  _) _ _ (GUIWindow.Bare (VStr "!aaaaaaaa")) _).
  - vm_compute. reflexivity.
  - vm_compute. reflexivity.
  - vm_compute. reflexivity.
  - vm_compute. reflexivity.
Defined.

Lemma process_queue_in_order_witness :
  ∃ handled bad,
    [ ({[ "decoded" := VDict {[ "portnum" := VStr "TEXT_MESSAGE_APP" ]} ]} : packet);
      {[ "decoded" := VStr "garbled" ]};
      {[ "decoded" := VDict {[ "portnum" := VStr "NODEINFO_APP" ]} ]} ]
    = (handled ++ bad
         :: [ ({[ "decoded" := VDict {[ "portnum" := VStr "NODEINFO_APP" ]} ]} : packet) ])%list
    ∧ GUIWindow.update_message_window GUIWindow.initial_filter_vars None bad
      = inl (OfExn AttributeError)
    ∧ [ GUIWindow.mk_log_entry (GUIWindow.Bare (VStr "N/A"))
          (GUIWindow.MessageText (VStr "Empty message")) ]
      = omap (GUIWindow.shown_entry GUIWindow.initial_filter_vars None) handled
    ∧ Forall (λ p, ∃ r, GUIWindow.update_message_window
                          GUIWindow.initial_filter_vars None p = inr r) handled.
Proof.
  refine (process_queue_in_order None GUIWindow.initial_filter_vars
           [ {[ "decoded" := VDict {[ "portnum" := VStr "TEXT_MESSAGE_APP" ]} ]};
             {[ "decoded" := VStr "garbled" ]};
             {[ "decoded" := VDict {[ "portnum" := VStr "NODEINFO_APP" ]} ]} ]
           _ _ (Some (OfExn AttributeError)) _).
  vm_compute. reflexivity.
Defined.

(** * The console entry of a packet *)

Section ConsoleEntry.

Import CLIDisplay.

Context (safe : string → string) (my_node_num : option Z)
  (nodes : gmap string (gmap string pyval)).

Lemma body_line_kind (message_type : pyval) (decoded : gmap string pyval)
    (body : packet_line) :
  body_line safe message_type decoded = inr body →
  match body with
  | MessageLine _ | PositionLine _ _ | DataLine _ => True
  | _ => False
  end.
Proof.
  unfold body_line. intros H. by repeat (case_match; simplify_eq).
Qed.

Lemma non_routing_is_displayed (p : packet) (s : ack_state)
    (d : gmap string pyval) (t : string) :
  p !! "decoded" = Some (VDict d) →
  d !! "portnum" = Some (VStr t) →
  t ≠ "ROUTING_APP" →
  on_receive safe my_node_num nodes p s
  = (Ok match display safe my_node_num nodes p d (VStr t) with
        | (lines, Some e) => (lines ++ [ErrorLine e])%list
        | (lines, None) => lines
        end, s).
Proof.
  intros Hdec Hport Ht. unfold on_receive. rewrite cli_on_receive_unfold.
  assert (dict_get p "decoded" VNone = VDict d) as Hd
    by (unfold dict_get; by rewrite Hdec).
  assert (dict_get d "portnum" (VStr "N_A") = VStr t) as Hp
    by (unfold dict_get; by rewrite Hport).
  rewrite Hd, Hp. rewrite bool_decide_eq_false_2
    by (intros ->; by rewrite lookup_empty in Hport).
  assert (expectation_matches (dict_get p "fromId" (VStr "N/A")) (VStr t) s = false)
    as ->.
  { unfold expectation_matches. simpl.
    apply String.eqb_neq in Ht. rewrite Ht. by rewrite andb_false_r. }
  unfold shown. by rewrite Hd, Hp.
Qed.

(** X15: [on_receive] never raises, and what it writes for a packet is
    nothing, a lone error report, or an entry that starts with the title;
    the entry is complete, with the prompt written again after it, exactly
    when nothing raised; an exception while the sender or the body is
    worked out leaves the entry cut off after the title or after the type
    line, followed by the error report and no prompt. Whenever something
    is written the ACK fields are unchanged. *)
Theorem console_entry_complete_or_cut_off (p : packet) (s : ack_state) :
  ∃ lines s',
    on_receive safe my_node_num nodes p s = (Ok lines, s')
    ∧ (lines ≠ [] → s' = s)
    ∧ (lines = []
       ∨ (∃ e, lines = [ErrorLine e])
       ∨ (∃ direct e, lines = [ClearLine; TitleLines direct; ErrorLine e])
       ∨ (∃ direct sender message_type e,
            lines = [ClearLine; TitleLines direct; FromLine sender;
                     TypeLine message_type; ErrorLine e])
       ∨ (∃ direct sender message_type body snr,
            lines = [ClearLine; TitleLines direct; FromLine sender;
                     TypeLine message_type; body; SnrLine snr; RuleLine; PromptLine]
            ∧ match body with
              | MessageLine _ | PositionLine _ _ | DataLine _ => True
              | _ => False
              end)).
Proof.
  unfold on_receive. rewrite cli_on_receive_unfold.
  destruct (dict_get p "decoded" VNone) as [|b|z|q|t|l|d] eqn:Hd.
  1-6: destruct (truthy _); eexists _, s; (split; [reflexivity|]);
       (split; [done|]); eauto.
  destruct (bool_decide (d = ∅)).
  { eexists _, s. split; [reflexivity|]. split; [done|]. by left. }
  destruct (expectation_matches _ _ s).
  { destruct (dict_get d "routing" (VDict ∅));
      eexists _, _; (split; [reflexivity|]); (split; [done|]); eauto. }
  exists (shown safe my_node_num nodes p), s.
  split; [reflexivity|]. split; [done|].
  unfold shown. rewrite Hd. unfold display.
  destruct (from_str safe nodes _) as [e|sender]; [eauto 10|].
  destruct (body_line safe _ d) as [e|body] eqn:Hbody; [eauto 10|].
  apply body_line_kind in Hbody. do 4 right. eauto 10.
Qed.

(** X16: the title is marked [DIRECT] only when [toId] is a number equal
    to [my_node_num]; a packet whose [toId] is a string, as a node id is,
    or is missing, is never marked. *)
Theorem direct_mark_needs_numeric_destination (p : packet) (s s' : ack_state)
    (lines : list packet_line) :
  on_receive safe my_node_num nodes p s = (Ok lines, s') →
  TitleLines true ∈ lines →
  ∃ n to_id, my_node_num = Some n ∧ p !! "toId" = Some to_id
             ∧ eq_int to_id n = true ∧ ∀ t, to_id ≠ VStr t.
Proof.
  unfold on_receive. rewrite cli_on_receive_unfold. intros Hrun Hin.
  assert (lines = shown safe my_node_num nodes p) as ->.
  { repeat (case_match; simplify_eq); try done;
      repeat (apply elem_of_cons in Hin as [Hin|Hin]; simplify_eq);
      by apply elem_of_nil in Hin. }
  clear Hrun. unfold shown, display in Hin.
  assert (match my_node_num with
          | Some n => eq_int (dict_get p "toId" VNone) n
          | None => false
          end = true) as Hdirect.
  { repeat (case_match; simplify_eq);
      try match goal with
          | H : body_line _ _ _ = inr _ |- _ => apply body_line_kind in H
          end;
      repeat (apply elem_of_cons in Hin as [Hin|Hin]; simplify_eq);
      try done; by apply elem_of_nil in Hin. }
  destruct my_node_num as [n|]; [|done].
  unfold dict_get in Hdirect. destruct (p !! "toId") as [to_id|]; [|done].
  exists n, to_id. repeat split; try done.
  intros t ->. done.
Qed.

(** X17: a POSITION_APP packet whose position is a dict is always written
    in full, whatever the ACK fields hold; a coordinate that is missing is
    written as N/A and nothing is raised. *)
Theorem console_position_shown_with_defaults (p : packet) (s : ack_state)
    (d pos : gmap string pyval) (sender : from_shown) :
  p !! "decoded" = Some (VDict d) →
  d !! "portnum" = Some (VStr "POSITION_APP") →
  d !! "position" = Some (VDict pos) →
  from_str safe nodes (dict_get p "fromId" (VStr "N/A")) = inr sender →
  ∃ direct,
    on_receive safe my_node_num nodes p s
    = (Ok [ClearLine; TitleLines direct; FromLine sender;
           TypeLine (VStr "POSITION_APP");
           PositionLine (dict_get pos "latitude" (VStr "N/A"))
                        (dict_get pos "longitude" (VStr "N/A"));
           SnrLine (dict_get p "rxSnr" (VStr "N/A")); RuleLine; PromptLine], s).
Proof.
  intros Hdec Hport Hpos Hfrom.
  exists (match my_node_num with
          | Some n => eq_int (dict_get p "toId" VNone) n
          | None => false
          end).
  rewrite (non_routing_is_displayed p s d "POSITION_APP" Hdec Hport) by discriminate.
  unfold display. rewrite Hfrom. unfold body_line.
  rewrite (bool_decide_eq_true_2 (is_Some (d !! "position"))) by eauto.
  simpl. unfold dict_get at 1 2. by rewrite Hpos.
Qed.

(** X18: for a TEXT_MESSAGE_APP packet the text is written only when it
    is a string; without a [text] key the whole [decoded] dict is written
    as data, and a [text] that is not a string cuts the entry off after
    the type line with an AttributeError reported. *)
Theorem console_text_line (p : packet) (s : ack_state)
    (d : gmap string pyval) (sender : from_shown) :
  p !! "decoded" = Some (VDict d) →
  d !! "portnum" = Some (VStr "TEXT_MESSAGE_APP") →
  from_str safe nodes (dict_get p "fromId" (VStr "N/A")) = inr sender →
  ∃ direct,
    on_receive safe my_node_num nodes p s
    = (Ok ([ClearLine; TitleLines direct; FromLine sender;
            TypeLine (VStr "TEXT_MESSAGE_APP")]
           ++ match d !! "text" with
              | None => [DataLine d; SnrLine (dict_get p "rxSnr" (VStr "N/A"));
                         RuleLine; PromptLine]
              | Some (VStr message_text) =>
                  [MessageLine (safe message_text);
                   SnrLine (dict_get p "rxSnr" (VStr "N/A")); RuleLine; PromptLine]
              | Some _ => [ErrorLine (OfExn AttributeError)]
              end)%list, s).
Proof.
  intros Hdec Hport Hfrom.
  exists (match my_node_num with
          | Some n => eq_int (dict_get p "toId" VNone) n
          | None => false
          end).
  rewrite (non_routing_is_displayed p s d "TEXT_MESSAGE_APP" Hdec Hport) by discriminate.
  unfold display. rewrite Hfrom. unfold body_line, dict_get.
  destruct (d !! "text") as [text|] eqn:Htext.
  - rewrite bool_decide_eq_true_2 by eauto. by destruct text.
  - rewrite bool_decide_eq_false_2 by (by intros [? ?]). reflexivity.
Qed.

End ConsoleEntry.

Lemma direct_mark_needs_numeric_destination_witness :
  ∃ n to_id,
    Some 5%Z = Some n
    ∧ ({[ "toId" := VInt 5; "fromId" := VStr "!aaaaaaaa";
          "decoded" := VDict {[ "portnum" := VStr "TEXT_MESSAGE_APP";
                                "text" := VStr "hi" ]} ]} : packet) !! "toId"
      = Some to_id
    ∧ CLIDisplay.eq_int to_id n = true ∧ ∀ t, to_id ≠ VStr t.
Proof.
  refine (direct_mark_needs_numeric_destination (λ s, s) (Some 5%Z) ∅
            {[ "toId" := VInt 5; "fromId" := VStr "!aaaaaaaa";
               "decoded" := VDict {[ "portnum" := VStr "TEXT_MESSAGE_APP";
                                     "text" := VStr "hi" ]} ]}
            initial_state initial_state
            [CLIDisplay.ClearLine; CLIDisplay.TitleLines true;
             CLIDisplay.FromLine (CLIDisplay.FromBare (VStr "!aaaaaaaa"));
             CLIDisplay.TypeLine (VStr "TEXT_MESSAGE_APP");
             CLIDisplay.MessageLine "hi"; CLIDisplay.SnrLine (VStr "N/A");
             CLIDisplay.RuleLine; CLIDisplay.PromptLine] _ _).
  - vm_compute. reflexivity.
  - apply list_elem_of_further, list_elem_of_here.
Defined.

Lemma console_position_shown_with_defaults_witness :
  ∃ direct,
    CLIDisplay.on_receive (λ s, s) None ∅
      {[ "fromId" := VStr "!aaaaaaaa";
         "decoded" := VDict {[ "portnum" := VStr "POSITION_APP";
                               "position" := VDict {[ "longitude" := VFloat 2 ]} ]} ]}
      (arm "!aaaaaaaa" initial_state)
    = (Ok [CLIDisplay.ClearLine; CLIDisplay.TitleLines direct;
           CLIDisplay.FromLine (CLIDisplay.FromBare (VStr "!aaaaaaaa"));
           CLIDisplay.TypeLine (VStr "POSITION_APP");
           CLIDisplay.PositionLine (VStr "N/A") (VFloat 2);
           CLIDisplay.SnrLine (VStr "N/A"); CLIDisplay.RuleLine;
           CLIDisplay.PromptLine], arm "!aaaaaaaa" initial_state).
Proof.
  refine (console_position_shown_with_defaults (λ s, s) None ∅
            {[ "fromId" := VStr "!aaaaaaaa";
               "decoded" := VDict {[ "portnum" := VStr "POSITION_APP";
                                     "position" := VDict {[ "longitude" := VFloat 2 ]} ]} ]}
            (arm "!aaaaaaaa" initial_state)
            {[ "portnum" := VStr "POSITION_APP";
               "position" := VDict {[ "longitude" := VFloat 2 ]} ]}
            {[ "longitude" := VFloat 2 ]}
            (CLIDisplay.FromBare (VStr "!aaaaaaaa")) _ _ _ _).
  - vm_compute. reflexivity.
  - vm_compute. reflexivity.
  - vm_compute. reflexivity.
  - vm_compute. reflexivity.
Defined.

Lemma console_text_line_witness :
  ∃ direct,
    CLIDisplay.on_receive (λ s, s) None ∅
      {[ "fromId" := VStr "!aaaaaaaa";
         "decoded" := VDict {[ "portnum" := VStr "TEXT_MESSAGE_APP";
                               "text" := VInt 7 ]} ]}
      initial_state
    = (Ok [CLIDisplay.ClearLine; CLIDisplay.TitleLines direct;
           CLIDisplay.FromLine (CLIDisplay.FromBare (VStr "!aaaaaaaa"));
           CLIDisplay.TypeLine (VStr "TEXT_MESSAGE_APP");
           CLIDisplay.ErrorLine (OfExn AttributeError)], initial_state).
Proof.
  refine (console_text_line (λ s, s) None ∅
            {[ "fromId" := VStr "!aaaaaaaa";
               "decoded" := VDict {[ "portnum" := VStr "TEXT_MESSAGE_APP";
                                     "text" := VInt 7 ]} ]}
            initial_state
            {[ "portnum" := VStr "TEXT_MESSAGE_APP"; "text" := VInt 7 ]}
            (CLIDisplay.FromBare (VStr "!aaaaaaaa")) _ _ _).
  - vm_compute. reflexivity.
  - vm_compute. reflexivity.
  - vm_compute. reflexivity.
Defined.
